(** * Buildable MCP client and tool registry: a shallow embedding

    The development follows the TypeScript sources:
    - [types.ts]  : the value records exchanged with the backend;
    - [client.ts] : [BuildableMCPClient], one method per remote operation,
                    the response interceptor and [formatError];
    - [cli.ts]    : [BuildableMCPServer.setupTools], the seven tools with
                    their zod input schemas and handlers.

    JavaScript values are an inductive type with the language's truthiness
    and [||]; asynchronous methods are computations in a state-and-exception
    monad whose state records every HTTP request handed to axios. *)

From Stdlib Require Import String List ZArith QArith Bool Lia.
Import ListNotations.

Close Scope Q_scope.
Local Open Scope list_scope.
Local Open Scope string_scope.

Set Implicit Arguments.

(* ================================================================== *)
(** ** JavaScript values *)
(* ================================================================== *)

Module Js.

(** A JavaScript [number]: the finite doubles are rationals; the three
    special values are kept apart because zod and [||] treat them
    differently. *)
Inductive number : Type :=
| NFin (q : Q)
| NNaN
| NPosInf
| NNegInf.

(** [a < b] on numbers; every comparison with NaN is false. *)
Definition num_ltb (a b : number) : bool :=
  match a, b with
  | NNaN, _ | _, NNaN => false
  | NFin x, NFin y => negb (Qle_bool y x)
  | NFin _, NPosInf => true
  | NFin _, NNegInf => false
  | NNegInf, NNegInf => false
  | NNegInf, _ => true
  | NPosInf, _ => false
  end.

Definition num_truthy (n : number) : bool :=
  match n with
  | NFin q => negb (Qeq_bool q 0)
  | NNaN => false
  | NPosInf | NNegInf => true
  end.

(** A value as it travels through the client: what [JSON.parse] can
    produce, plus [undefined].  An object is the list of its own
    properties, keys pairwise distinct; a read takes the first match. *)
#[warnings="-register-all"]
Inductive value : Type :=
| JUndefined
| JNull
| JBool (b : bool)
| JNum (n : number)
| JStr (s : string)
| JArr (items : list value)
| JObj (fields : list (string * value)).

Definition str_nonempty (s : string) : bool :=
  match s with
  | EmptyString => false
  | String _ _ => true
  end.

(** ToBoolean. *)
Definition truthy (v : value) : bool :=
  match v with
  | JUndefined | JNull => false
  | JBool b => b
  | JNum n => num_truthy n
  | JStr s => str_nonempty s
  | JArr _ | JObj _ => true
  end.

(** [a || b]. *)
Definition or (a b : value) : value := if truthy a then a else b.

Definition nullish (v : value) : bool :=
  match v with
  | JUndefined | JNull => true
  | _ => false
  end.

Fixpoint lookup (k : string) (fs : list (string * value)) : value :=
  match fs with
  | [] => JUndefined
  | (k', v) :: rest => if String.eqb k k' then v else lookup k rest
  end.

(** [v.k] on a value that is neither [null] nor [undefined], and [v?.k]
    on any value.  None of the keys read by the client is a built-in
    property of strings, arrays, numbers or booleans, so a read on those
    gives [undefined]. *)
Definition field (v : value) (k : string) : value :=
  match v with
  | JObj fs => lookup k fs
  | _ => JUndefined
  end.

(** [v !== undefined]: the property is present. *)
Definition present (v : value) : bool :=
  match v with
  | JUndefined => false
  | _ => true
  end.

Definition of_option {A : Type} (f : A -> value) (o : option A) : value :=
  match o with
  | Some a => f a
  | None => JUndefined
  end.

Definition of_strings (l : list string) : value := JArr (map JStr l).

End Js.
Import Js.

(* ================================================================== *)
(** ** types.ts *)
(* ================================================================== *)

Record BuildableConfig : Type := {
  apiUrl : string;
  apiKey : string;
  projectId : string;
  aiAssistantId : option string;
  timeout : option number
}.

Inductive LogLevel : Type := Debug | Info | Warn | Error.

Record ClientOptions : Type := {
  retryAttempts : option number;
  retryDelay : option number;
  enableRealTimeUpdates : option bool;
  logLevel : option LogLevel
}.

Record StartTaskOptions : Type := {
  sto_approach : option string;
  sto_estimated_duration : option number;
  sto_notes : option string
}.

Record ProgressUpdate : Type := {
  progress : number;
  status_update : string;
  completed_steps : option (list string);
  current_step : option string;
  challenges : option (list string);
  time_spent : option number;
  files_modified : option (list string);
  notes : option string
}.

Record CompleteTaskRequest : Type := {
  completion_notes : string;
  ctr_files_modified : list string;
  testing_completed : bool;
  documentation_updated : bool;
  ctr_time_spent : number;
  challenges_faced : option (list string);
  lessons_learned : option (list string);
  next_recommendations : option (list string)
}.

Inductive Urgency : Type := Low | Medium | High.

Definition urgency_string (u : Urgency) : string :=
  match u with
  | Low => "low"
  | Medium => "medium"
  | High => "high"
  end.

Record DiscussionContext : Type := {
  current_task_id : option string;
  related_files : option (list string);
  specific_challenge : option string;
  urgency : option Urgency
}.

Record CreateDiscussionRequest : Type := {
  topic : string;
  message : string;
  context : option DiscussionContext
}.

(** [APIError].  [error] holds whatever the body carried (the source only
    casts it to [string]); an absent [code] or [details] is [undefined]. *)
Record APIError : Type := {
  error : value;
  code : value;
  details : value;
  timestamp : string
}.

(** [MCPResponse<T>]: [data] and [error] are optional properties. *)
Record MCPResponse : Type := {
  success : bool;
  data : value;
  mcp_error : option APIError;
  mcp_timestamp : string
}.

(* ================================================================== *)
(** ** The HTTP boundary (axios) *)
(* ================================================================== *)

Inductive Method : Type := GET | POST | PUT | DELETE.

(** What an axios instance hands to its adapter for one call: the
    per-call [method], [url] and [data] merged with the instance
    defaults. *)
Record AxiosRequest : Type := {
  method : Method;
  url : string;
  baseURL : string;
  req_timeout : value;
  headers : list (string * string);
  req_data : value
}.

Record AxiosResponse : Type := {
  status : Z;
  resp_data : value
}.

(** [AxiosError]: [response] is set for a non-2xx answer and absent for a
    network failure. *)
Record AxiosError : Type := {
  ae_message : string;
  ae_response : option AxiosResponse
}.

(** A settled axios call, before the interceptors: fulfilled for a 2xx
    answer, rejected otherwise. *)
Inductive Outcome : Type :=
| Fulfilled (r : AxiosResponse)
| Rejected (e : AxiosError).

(** The instance returned by [axios.create]. *)
Record AxiosInstance : Type := {
  ax_baseURL : string;
  ax_timeout : value;
  ax_headers : list (string * string)
}.

(* ================================================================== *)
(** ** Computations: state, exceptions, environment *)
(* ================================================================== *)

(** The values the code throws. *)
Inductive Exn : Type :=
| ExnAPIError (e : APIError)
| ExnError (msg : string)
| ExnTypeError.

(** What the program cannot decide: how the backend settles a request
    (given the requests seen so far), what the system clock reads at its
    n-th reading, and [JSON.stringify]. *)
Record Env : Type := {
  transport : list AxiosRequest -> AxiosRequest -> Outcome;
  clock : nat -> string;
  stringify : value -> value
}.

Record World : Type := {
  trace : list AxiosRequest;
  ticks : nat
}.

Inductive Result (A : Type) : Type :=
| Returned (a : A)
| Thrown (e : Exn).
Arguments Thrown {A} e.

Definition M (A : Type) : Type := Env -> World -> Result A * World.

Definition ret {A : Type} (a : A) : M A :=
  fun _ w => (Returned a, w).

Definition bind {A B : Type} (m : M A) (k : A -> M B) : M B :=
  fun env w =>
    match m env w with
    | (Returned a, w') => k a env w'
    | (Thrown e, w') => (Thrown e, w')
    end.

Definition throw {A : Type} (e : Exn) : M A :=
  fun _ w => (Thrown e, w).

(** [try { body } catch (error) { handler }]. *)
Definition try_catch {A : Type} (body : M A) (handler : Exn -> M A) : M A :=
  fun env w =>
    match body env w with
    | (Returned a, w') => (Returned a, w')
    | (Thrown e, w') => handler e env w'
    end.

Declare Scope js_scope.
Delimit Scope js_scope with js.
Notation "x <- c ;; k" := (bind c (fun x => k))
  (at level 61, c at next level, right associativity) : js_scope.
Notation "c ;;; k" := (bind c (fun _ => k))
  (at level 61, right associativity) : js_scope.
Local Open Scope js_scope.

(** [new Date().toISOString()]: one reading of the clock. *)
Definition now : M string :=
  fun env w =>
    (Returned (clock env (ticks w)),
     {| trace := trace w; ticks := S (ticks w) |}).

(** [Date.now()]: one reading of the clock; the client uses the number
    only in log messages. *)
Definition dateNow : M unit :=
  fun _ w => (Returned tt, {| trace := trace w; ticks := S (ticks w) |}).

(** [this.log(level, message, ...args)]: the body is a bare [return]. *)
Definition log (_level : LogLevel) : M unit := ret tt.

(** Whether a value can be converted to a string.  The primitives can.
    An array joins the strings of its elements.  An object takes its
    [toString]: the inherited one answers, an own property of that name
    hides it and, coming from JSON, is not a function, after which
    [valueOf] gives no primitive either. *)
Fixpoint convertible (v : value) : bool :=
  match v with
  | JArr items => forallb convertible items
  | JObj fs =>
      negb (existsb (fun kv => String.eqb (fst kv) "toString") fs)
  | _ => true
  end.

(** The string conversion of a template literal whose text only goes to
    [log]: a TypeError when the value cannot be converted. *)
Definition to_string (v : value) : M unit :=
  if convertible v then ret tt else throw ExnTypeError.

(* ================================================================== *)
(** ** client.ts *)
(* ================================================================== *)

Record Client : Type := {
  cl_axios : AxiosInstance;
  cl_config : BuildableConfig;
  cl_options : ClientOptions;
  cl_aiAssistantId : string
}.

Definition default_option {A : Type} (d : A) (o : option A) : option A :=
  match o with
  | Some a => Some a
  | None => Some d
  end.

(** [s || d] for an optional string [s]. *)
Definition str_or (s : option string) (d : string) : string :=
  match s with
  | Some x => if str_nonempty x then x else d
  | None => d
  end.

(** [new BuildableMCPClient(config, options)]; [uuid] is what [uuidv4()]
    returns when it is called. *)
Definition constructor (config : BuildableConfig) (options : ClientOptions)
    (uuid : string) : Client :=
  let id := str_or (aiAssistantId config) ("ai_" ++ substring 0 8 uuid) in
  {| cl_config := config;
     cl_options :=
       {| retryAttempts := default_option (NFin (3 # 1)) (retryAttempts options);
          retryDelay := default_option (NFin (1000 # 1)) (retryDelay options);
          enableRealTimeUpdates :=
            default_option false (enableRealTimeUpdates options);
          logLevel := default_option Info (logLevel options) |};
     cl_aiAssistantId := id;
     cl_axios :=
       {| ax_baseURL := apiUrl config;
          ax_timeout :=
            Js.or (of_option JNum (timeout config)) (JNum (NFin (30000 # 1)));
          ax_headers :=
            [ ("Authorization", "Bearer " ++ apiKey config);
              ("X-AI-Assistant-ID", id);
              ("Content-Type", "application/json");
              ("User-Agent", "@bldbl/mcp/1.0.0") ] |} |}.

(** [formatError] once the clock has been read. *)
Definition formatErrorAt (ts : string) (err : AxiosError) : APIError :=
  let apiError :=
    {| error := Js.or (JStr (ae_message err)) (JStr "Unknown API error");
       code := JUndefined;
       details := JUndefined;
       timestamp := ts |} in
  let body := of_option resp_data (ae_response err) in
  if truthy body then
    {| error :=
         Js.or (field body "error")
               (Js.or (field body "message") (error apiError));
       code := field body "code";
       details := field body "details";
       timestamp := ts |}
  else apiError.

Definition formatError (err : AxiosError) : M APIError :=
  ts <- now ;; ret (formatErrorAt ts err).

(** The response interceptor's rejection handler. *)
Definition onRejected (err : AxiosError) : M AxiosResponse :=
  log Error ;;;
  apiError <- formatError err ;;
  throw (ExnAPIError apiError).

(** The per-call configuration merged with the defaults of the instance. *)
Definition mergeConfig (ax : AxiosInstance) (m : Method) (u : string)
    (d : value) : AxiosRequest :=
  {| method := m; url := u; baseURL := ax_baseURL ax;
     req_timeout := ax_timeout ax; headers := ax_headers ax;
     req_data := d |}.

(** [this.axios.request({method, url, data})]: the request is recorded,
    the backend settles it, the interceptors run. *)
Definition axios_request (ax : AxiosInstance) (m : Method) (u : string)
    (d : value) : M AxiosResponse :=
  fun env w =>
    let req := mergeConfig ax m u d in
    let w' := {| trace := (trace w ++ [req])%list; ticks := ticks w |} in
    match transport env (trace w) req with
    | Fulfilled response => (Returned response, w')
    | Rejected err => onRejected err env w'
    end.

Definition axios_get (ax : AxiosInstance) (u : string) : M AxiosResponse :=
  axios_request ax GET u JUndefined.

Definition axios_post (ax : AxiosInstance) (u : string) (d : value)
    : M AxiosResponse :=
  axios_request ax POST u d.

Definition makeRequest (c : Client) (m : Method) (u : string) (d : value)
    : M MCPResponse :=
  dateNow ;;;
  try_catch
    (response <- axios_request (cl_axios c) m u d ;;
     dateNow ;;;
     log Debug ;;;
     ts <- now ;;
     ret {| success := true;
            data := resp_data response;
            mcp_error := None;
            mcp_timestamp := ts |})
    (fun error => dateNow ;;; log Error ;;; throw error).

Inductive ConnectionStatus : Type := Connected | Working | Disconnected.

Definition status_string (s : ConnectionStatus) : string :=
  match s with
  | Connected => "connected"
  | Working => "working"
  | Disconnected => "disconnected"
  end.

(** The body of [POST /internal/ai-connections], [ts] being the clock
    reading taken for [last_activity]. *)
Definition connection_body (c : Client) (st : ConnectionStatus)
    (currentTaskId : option string) (ts : string) : value :=
  JObj [ ("ai_assistant_id", JStr (cl_aiAssistantId c));
         ("status", JStr (status_string st));
         ("current_task_id", of_option JStr currentTaskId);
         ("metadata",
          JObj [ ("client_version", JStr "1.0.0");
                 ("capabilities",
                  JArr [ JStr "task_management";
                         JStr "progress_tracking";
                         JStr "discussions" ]);
                 ("last_activity", JStr ts) ]) ].

Definition updateConnectionStatus (c : Client) (st : ConnectionStatus)
    (currentTaskId : option string) : M unit :=
  try_catch
    (ts <- now ;;
     axios_post (cl_axios c) "/internal/ai-connections"
       (connection_body c st currentTaskId ts) ;;;
     ret tt)
    (fun _ => log Debug).

Definition getProjectContext (c : Client) : M value :=
  log Debug ;;;
  try_catch
    (response <- makeRequest c GET
       ("/projects/" ++ projectId (cl_config c) ++ "/context") JUndefined ;;
     log Info ;;;
     ret (data response))
    (fun error => log Error ;;; throw error).

Definition getNextTask (c : Client) : M value :=
  log Debug ;;;
  try_catch
    (response <- makeRequest c GET
       ("/projects/" ++ projectId (cl_config c) ++ "/next-task") JUndefined ;;
     (if truthy (field (data response) "task")
      then to_string (field (field (data response) "task") "title") ;;;
           log Info
      else log Info) ;;;
     ret (data response))
    (fun error => log Error ;;; throw error).

(** The body of [POST /tasks/{id}/start]. *)
Definition startTask_body (c : Client) (options : StartTaskOptions) : value :=
  JObj [ ("ai_assistant_id", JStr (cl_aiAssistantId c));
         ("estimated_time_minutes",
          of_option JNum (sto_estimated_duration options));
         ("notes", of_option JStr (sto_notes options));
         ("approach", of_option JStr (sto_approach options)) ].

Definition startTask (c : Client) (taskId : string)
    (options : StartTaskOptions) : M value :=
  log Debug ;;;
  try_catch
    (response <- makeRequest c POST ("/tasks/" ++ taskId ++ "/start")
       (startTask_body c options) ;;
     log Info ;;;
     updateConnectionStatus c Working (Some taskId) ;;;
     ret (data response))
    (fun error => log Error ;;; throw error).

(** The body of [POST /tasks/{id}/progress]. *)
Definition updateProgress_body (p : ProgressUpdate) : value :=
  JObj [ ("completion_percentage", JNum (progress p));
         ("files_created", of_option of_strings (files_modified p));
         ("files_modified", of_option of_strings (files_modified p));
         ("notes", of_option JStr (notes p));
         ("blockers", of_option of_strings (challenges p));
         ("time_spent_minutes", of_option JNum (time_spent p));
         ("current_step", of_option JStr (current_step p));
         ("completed_steps", of_option of_strings (completed_steps p)) ].

Definition updateProgress (c : Client) (taskId : string)
    (p : ProgressUpdate) : M value :=
  log Debug ;;;
  try_catch
    (response <- makeRequest c POST ("/tasks/" ++ taskId ++ "/progress")
       (updateProgress_body p) ;;
     log Info ;;;
     updateConnectionStatus c Working (Some taskId) ;;;
     ret (data response))
    (fun error => log Error ;;; throw error).

(** The body of [POST /tasks/{id}/complete]. *)
Definition completeTask_body (completion : CompleteTaskRequest) : value :=
  JObj [ ("files_created", of_strings (ctr_files_modified completion));
         ("files_modified", of_strings (ctr_files_modified completion));
         ("completion_notes", JStr (completion_notes completion));
         ("time_spent_minutes", JNum (ctr_time_spent completion));
         ("verification_evidence",
          if testing_completed completion
          then JStr "Tests passed"
          else JUndefined) ].

Definition completeTask (c : Client) (taskId : string)
    (completion : CompleteTaskRequest) : M value :=
  log Debug ;;;
  try_catch
    (response <- makeRequest c POST ("/tasks/" ++ taskId ++ "/complete")
       (completeTask_body completion) ;;
     log Info ;;;
     updateConnectionStatus c Connected None ;;;
     ret (data response))
    (fun error => log Error ;;; throw error).

(** [o?.f] for an optional record [o] and an optional property [f]. *)
Definition opt_chain {A B : Type} (o : option A) (f : A -> option B)
    : option B :=
  match o with
  | Some a => f a
  | None => None
  end.

Definition js_urgency (u : Urgency) : value := JStr (urgency_string u).

(** The body of [POST /projects/{id}/discuss]. *)
Definition createDiscussion_body (c : Client)
    (discussion : CreateDiscussionRequest) : value :=
  let ctx := context discussion in
  JObj [ ("type", JStr "question");
         ("title", JStr (topic discussion));
         ("message", JStr (message discussion));
         ("context",
          JObj [ ("task_id", of_option JStr (opt_chain ctx current_task_id));
                 ("relevant_files",
                  of_option of_strings (opt_chain ctx related_files));
                 ("specific_challenge",
                  of_option JStr (opt_chain ctx specific_challenge));
                 ("urgency",
                  Js.or (of_option js_urgency (opt_chain ctx urgency))
                        (JStr "medium")) ]);
         ("urgency",
          Js.or (of_option js_urgency (opt_chain ctx urgency))
                (JStr "medium"));
         ("requires_human_response", JBool true);
         ("created_by", JStr (cl_aiAssistantId c)) ].

Definition createDiscussion (c : Client)
    (discussion : CreateDiscussionRequest) : M value :=
  log Debug ;;;
  try_catch
    (response <- makeRequest c POST
       ("/projects/" ++ projectId (cl_config c) ++ "/discuss")
       (createDiscussion_body c discussion) ;;
     to_string (field (data response) "discussion_id") ;;;
     log Info ;;;
     ret (data response))
    (fun error => log Error ;;; throw error).

Definition healthCheck (c : Client) : M value :=
  try_catch
    (response <- makeRequest c GET "/health" JUndefined ;;
     log Debug ;;;
     ret (data response))
    (fun error => log Error ;;; throw error).

Definition connect (c : Client) : M unit :=
  log Info ;;;
  try_catch
    (updateConnectionStatus c Connected None ;;; log Info)
    (fun _ => log Warn).

Definition disconnect (c : Client) : M unit :=
  log Info ;;;
  try_catch
    (updateConnectionStatus c Disconnected None ;;; log Info)
    (fun _ => log Warn).

(** [v.k] where [v] may be [null] or [undefined]: a TypeError then. *)
Definition member (v : value) (k : string) : M value :=
  if nullish v then throw ExnTypeError else ret (field v k).

(** [v === s] for a string [s]. *)
Definition strict_eq_string (v : value) (s : string) : bool :=
  match v with
  | JStr x => String.eqb x s
  | _ => false
  end.

(** [connections.find((conn) => conn.ai_assistant_id === id)]. *)
Fixpoint find_connection (id : string) (connections : list value)
    : M value :=
  match connections with
  | [] => ret JUndefined
  | conn :: rest =>
      a <- member conn "ai_assistant_id" ;;
      if strict_eq_string a id then ret conn else find_connection id rest
  end.

Definition connection_record (st : string) : value :=
  JObj [ ("status", JStr st);
         ("connected_at", JStr EmptyString);
         ("last_activity_at", JStr EmptyString) ].

Definition getConnectionStatus (c : Client) : M value :=
  try_catch
    (response <- axios_get (cl_axios c)
       ("/projects/" ++ projectId (cl_config c) ++ "/ai-connections") ;;
     listed <- member (resp_data response) "connections" ;;
     match Js.or listed (JArr []) with
     | JArr connections =>
         myConnection <- find_connection (cl_aiAssistantId c) connections ;;
         ret (Js.or myConnection (connection_record "disconnected"))
     | _ => throw ExnTypeError
     end)
    (fun _ => log Warn ;;; ret (connection_record "unknown")).

Definition createBuildableClient (config : BuildableConfig)
    (options : ClientOptions) (uuid : string) : Client :=
  constructor config options uuid.

(* ================================================================== *)
(** ** zod schemas, as far as cli.ts uses them *)
(* ================================================================== *)

Notation "x <-? c ;; k" :=
  (match c with Some x => k | None => None end)
  (at level 61, c at next level, right associativity) : js_scope.

Module Zod.

(** A schema is its [safeParse]: the parsed value, or a failure. *)
Definition schema (A : Type) : Type := value -> option A.

Definition string : schema String.string :=
  fun v => match v with JStr s => Some s | _ => None end.

Definition boolean : schema bool :=
  fun v => match v with JBool b => Some b | _ => None end.

(** The refinements of a number schema, in the order they were added;
    both bounds are inclusive. *)
Inductive check : Type :=
| CheckMin (bound : Q)
| CheckMax (bound : Q).

Definition ZodNumber : Type := list check.

Definition number : ZodNumber := [].
Definition min (bound : Q) (z : ZodNumber) : ZodNumber :=
  (z ++ [CheckMin bound])%list.
Definition max (bound : Q) (z : ZodNumber) : ZodNumber :=
  (z ++ [CheckMax bound])%list.

(** A check fails when the input is below the minimum, above the
    maximum. *)
Definition check_ok (n : Js.number) (c : check) : bool :=
  match c with
  | CheckMin bound => negb (num_ltb n (NFin bound))
  | CheckMax bound => negb (num_ltb (NFin bound) n)
  end.

(** [z.number()] accepts a number that is not NaN and passes every
    check. *)
Definition parse_number (z : ZodNumber) : schema Js.number :=
  fun v =>
    match v with
    | JNum NNaN => None
    | JNum n => if forallb (check_ok n) z then Some n else None
    | _ => None
    end.

Fixpoint parse_items {A : Type} (item : schema A) (l : list value)
    : option (list A) :=
  match l with
  | [] => Some []
  | v :: rest =>
      x <-? item v ;;
      xs <-? parse_items item rest ;;
      Some (x :: xs)
  end.

Definition array {A : Type} (item : schema A) : schema (list A) :=
  fun v => match v with JArr l => parse_items item l | _ => None end.

(** [z.enum([...])], each literal paired with the constructor it denotes. *)
Fixpoint enum_lookup {A : Type} (alts : list (String.string * A))
    (s : String.string) : option A :=
  match alts with
  | [] => None
  | (k, a) :: rest => if String.eqb s k then Some a else enum_lookup rest s
  end.

Definition enum {A : Type} (alts : list (String.string * A)) : schema A :=
  fun v => match v with JStr s => enum_lookup alts s | _ => None end.

Definition optional {A : Type} (s : schema A) : schema (option A) :=
  fun v =>
    match v with
    | JUndefined => Some None
    | _ => x <-? s v ;; Some (Some x)
    end.

(** [z.object(shape)]: the input must be an object; each key of the shape
    is parsed from the property of that name, other keys are dropped. *)
Definition object {A : Type} (shape : value -> option A) : schema A :=
  fun v => match v with JObj _ => shape v | _ => None end.

End Zod.

(* ================================================================== *)
(** ** cli.ts *)
(* ================================================================== *)

Record BuildableMCPServer : Type := {
  client : option Client
}.

(** One entry of [server.tool(name, shape, callback)]. *)
Record Tool : Type := {
  name : string;
  Args : Type;
  inputSchema : Zod.schema Args;
  callback : BuildableMCPServer -> Args -> M value
}.

Definition json_stringify (v : value) : M value :=
  fun env w => (Returned (stringify env v), w).

(** [{ content: [{ type: 'text', text }] }]. *)
Definition text_content (text : value) : value :=
  JObj [ ("content",
          JArr [ JObj [ ("type", JStr "text"); ("text", text) ] ]) ].

Definition not_connected : Exn := ExnError "Not connected to Buildable API".

(** A tool registered with the empty shape takes no arguments: its
    callback runs whatever the request carries as arguments, also when
    they are left out. *)
Definition no_args_schema : Zod.schema unit :=
  fun _ => Some tt.

Definition get_project_context : Tool :=
  {| name := "get_project_context";
     inputSchema := no_args_schema;
     callback := fun this _ =>
       match client this with
       | None => throw not_connected
       | Some c =>
           context <- getProjectContext c ;;
           text <- json_stringify context ;;
           ret (text_content text)
       end |}.

Definition get_next_task : Tool :=
  {| name := "get_next_task";
     inputSchema := no_args_schema;
     callback := fun this _ =>
       match client this with
       | None => throw not_connected
       | Some c =>
           nextTask <- getNextTask c ;;
           text <- json_stringify nextTask ;;
           ret (text_content text)
       end |}.

Record StartTaskArgs : Type := {
  st_task_id : string;
  st_approach : option string;
  st_estimated_duration : option number;
  st_notes : option string
}.

Definition start_task : Tool :=
  {| name := "start_task";
     inputSchema := Zod.object (fun args =>
       task_id <-? Zod.string (field args "task_id") ;;
       approach <-? Zod.optional Zod.string (field args "approach") ;;
       estimated_duration <-?
         Zod.optional (Zod.parse_number Zod.number)
           (field args "estimated_duration") ;;
       notes <-? Zod.optional Zod.string (field args "notes") ;;
       Some {| st_task_id := task_id;
               st_approach := approach;
               st_estimated_duration := estimated_duration;
               st_notes := notes |});
     callback := fun this a =>
       match client this with
       | None => throw not_connected
       | Some c =>
           result <- startTask c (st_task_id a)
             {| sto_approach := st_approach a;
                sto_estimated_duration := st_estimated_duration a;
                sto_notes := st_notes a |} ;;
           text <- json_stringify result ;;
           ret (text_content text)
       end |}.

Record UpdateProgressArgs : Type := {
  up_task_id : string;
  up_progress : number;
  up_status_update : string;
  up_completed_steps : option (list string);
  up_current_step : option string;
  up_challenges : option (list string);
  up_files_modified : option (list string);
  up_time_spent : option number;
  up_notes : option string
}.

Definition update_progress_schema : Zod.schema UpdateProgressArgs :=
  Zod.object (fun args =>
    task_id <-? Zod.string (field args "task_id") ;;
    progress <-?
      Zod.parse_number (Zod.max (100 # 1) (Zod.min (0 # 1) Zod.number))
        (field args "progress") ;;
    status_update <-? Zod.string (field args "status_update") ;;
    completed_steps <-?
      Zod.optional (Zod.array Zod.string) (field args "completed_steps") ;;
    current_step <-? Zod.optional Zod.string (field args "current_step") ;;
    challenges <-?
      Zod.optional (Zod.array Zod.string) (field args "challenges") ;;
    files_modified <-?
      Zod.optional (Zod.array Zod.string) (field args "files_modified") ;;
    time_spent <-?
      Zod.optional (Zod.parse_number Zod.number) (field args "time_spent") ;;
    notes <-? Zod.optional Zod.string (field args "notes") ;;
    Some {| up_task_id := task_id;
            up_progress := progress;
            up_status_update := status_update;
            up_completed_steps := completed_steps;
            up_current_step := current_step;
            up_challenges := challenges;
            up_files_modified := files_modified;
            up_time_spent := time_spent;
            up_notes := notes |}).

Definition update_progress : Tool :=
  {| name := "update_progress";
     inputSchema := update_progress_schema;
     callback := fun this a =>
       match client this with
       | None => throw not_connected
       | Some c =>
           result <- updateProgress c (up_task_id a)
             {| progress := up_progress a;
                status_update := up_status_update a;
                completed_steps := up_completed_steps a;
                current_step := up_current_step a;
                challenges := up_challenges a;
                files_modified := up_files_modified a;
                time_spent := up_time_spent a;
                notes := up_notes a |} ;;
           text <- json_stringify result ;;
           ret (text_content text)
       end |}.

Record CompleteTaskArgs : Type := {
  ct_task_id : string;
  ct_completion_notes : string;
  ct_files_modified : option (list string);
  ct_testing_completed : option bool;
  ct_documentation_updated : option bool;
  ct_time_spent : option number
}.

(** [xs || \[\]], [b || false] and [n || 0] on optional arguments. *)
Definition strings_or_empty (o : option (list string)) : list string :=
  match o with
  | Some l => l
  | None => []
  end.

Definition bool_or_false (o : option bool) : bool :=
  match o with
  | Some b => b
  | None => false
  end.

Definition number_or_zero (o : option number) : number :=
  match o with
  | Some n => if num_truthy n then n else NFin (0 # 1)
  | None => NFin (0 # 1)
  end.

Definition complete_task : Tool :=
  {| name := "complete_task";
     inputSchema := Zod.object (fun args =>
       task_id <-? Zod.string (field args "task_id") ;;
       completion_notes <-? Zod.string (field args "completion_notes") ;;
       files_modified <-?
         Zod.optional (Zod.array Zod.string) (field args "files_modified") ;;
       testing_completed <-?
         Zod.optional Zod.boolean (field args "testing_completed") ;;
       documentation_updated <-?
         Zod.optional Zod.boolean (field args "documentation_updated") ;;
       time_spent <-?
         Zod.optional (Zod.parse_number Zod.number)
           (field args "time_spent") ;;
       Some {| ct_task_id := task_id;
               ct_completion_notes := completion_notes;
               ct_files_modified := files_modified;
               ct_testing_completed := testing_completed;
               ct_documentation_updated := documentation_updated;
               ct_time_spent := time_spent |});
     callback := fun this a =>
       match client this with
       | None => throw not_connected
       | Some c =>
           result <- completeTask c (ct_task_id a)
             {| completion_notes := ct_completion_notes a;
                ctr_files_modified := strings_or_empty (ct_files_modified a);
                testing_completed := bool_or_false (ct_testing_completed a);
                documentation_updated :=
                  bool_or_false (ct_documentation_updated a);
                ctr_time_spent := number_or_zero (ct_time_spent a);
                challenges_faced := None;
                lessons_learned := None;
                next_recommendations := None |} ;;
           text <- json_stringify result ;;
           ret (text_content text)
       end |}.

Record CreateDiscussionArgs : Type := {
  cd_title : string;
  cd_content : string;
  cd_urgency : option Urgency;
  cd_tags : option (list string)
}.

Definition urgency_enum : Zod.schema Urgency :=
  Zod.enum [ ("low", Low); ("medium", Medium); ("high", High) ].

Definition create_discussion_schema : Zod.schema CreateDiscussionArgs :=
  Zod.object (fun args =>
    title <-? Zod.string (field args "title") ;;
    content <-? Zod.string (field args "content") ;;
    urgency <-? Zod.optional urgency_enum (field args "urgency") ;;
    tags <-? Zod.optional (Zod.array Zod.string) (field args "tags") ;;
    Some {| cd_title := title;
            cd_content := content;
            cd_urgency := urgency;
            cd_tags := tags |}).

(** What the handler passes to [createDiscussion]. *)
Definition create_discussion_request (a : CreateDiscussionArgs)
    : CreateDiscussionRequest :=
  {| topic := cd_title a;
     message := cd_content a;
     context := Some {| current_task_id := None;
                        related_files := None;
                        specific_challenge := None;
                        urgency := cd_urgency a |} |}.

Definition create_discussion : Tool :=
  {| name := "create_discussion";
     inputSchema := create_discussion_schema;
     callback := fun this a =>
       match client this with
       | None => throw not_connected
       | Some c =>
           result <- createDiscussion c (create_discussion_request a) ;;
           text <- json_stringify result ;;
           ret (text_content text)
       end |}.

Definition health_check : Tool :=
  {| name := "health_check";
     inputSchema := no_args_schema;
     callback := fun this _ =>
       match client this with
       | None => throw not_connected
       | Some c =>
           result <- healthCheck c ;;
           text <- json_stringify result ;;
           ret (text_content text)
       end |}.

(** The registry built by [setupTools], in registration order. *)
Definition setupTools : list Tool :=
  [ get_project_context; get_next_task; start_task; update_progress;
    complete_task; create_discussion; health_check ].

(** How a [tools/call] request ends. *)
Inductive CallToolResult : Type :=
| ToolResult (result : value)
| ToolIsError (thrown : Exn)
| InvalidArguments
| ToolNotFound.

Fixpoint find_tool (tools : list Tool) (n : string) : option Tool :=
  match tools with
  | [] => None
  | t :: rest => if String.eqb (name t) n then Some t else find_tool rest n
  end.

(** The dispatcher of [McpServer] for one [tools/call]: the tool is looked
    up by name, the arguments are parsed with its input schema, and only
    then the callback runs; what the callback throws becomes an error
    result. *)
Definition callTool (this : BuildableMCPServer) (n : string) (args : value)
    : M CallToolResult :=
  match find_tool setupTools n with
  | None => ret ToolNotFound
  | Some t =>
      match inputSchema t args with
      | None => ret InvalidArguments
      | Some a =>
          try_catch
            (result <- callback t this a ;; ret (ToolResult result))
            (fun e => ret (ToolIsError e))
      end
  end.

(* ================================================================== *)
(** ** Running a client for a while *)
(* ================================================================== *)

(** One call on the public interface of the client. *)
Inductive Call : Type :=
| CallGetProjectContext
| CallGetNextTask
| CallStartTask (taskId : string) (options : StartTaskOptions)
| CallUpdateProgress (taskId : string) (p : ProgressUpdate)
| CallCompleteTask (taskId : string) (completion : CompleteTaskRequest)
| CallCreateDiscussion (discussion : CreateDiscussionRequest)
| CallHealthCheck
| CallConnect
| CallDisconnect
| CallGetConnectionStatus.

Definition discard {A : Type} (m : M A) : M unit := m ;;; ret tt.

Definition run_call (c : Client) (k : Call) : M unit :=
  match k with
  | CallGetProjectContext => discard (getProjectContext c)
  | CallGetNextTask => discard (getNextTask c)
  | CallStartTask taskId options => discard (startTask c taskId options)
  | CallUpdateProgress taskId p => discard (updateProgress c taskId p)
  | CallCompleteTask taskId completion =>
      discard (completeTask c taskId completion)
  | CallCreateDiscussion discussion => discard (createDiscussion c discussion)
  | CallHealthCheck => discard (healthCheck c)
  | CallConnect => connect c
  | CallDisconnect => disconnect c
  | CallGetConnectionStatus => discard (getConnectionStatus c)
  end.

(** A caller that goes on after a failed call: the world after a sequence
    of calls, whatever each of them returned or threw. *)
Fixpoint run_calls (c : Client) (ks : list Call) (env : Env) (w : World)
    : World :=
  match ks with
  | [] => w
  | k :: rest => run_calls c rest env (snd (run_call c k env w))
  end.

Definition initial_world : World := {| trace := []; ticks := 0 |}.

(** The requests a computation sends, started in world [w]. *)
Definition sent {A : Type} (m : M A) (env : Env) (w : World)
    : list AxiosRequest :=
  skipn (length (trace w)) (trace (snd (m env w))).

Definition outcome_of {A : Type} (m : M A) (env : Env) (w : World)
    : Result A :=
  fst (m env w).

(** A header of a request, by name. *)
Fixpoint header (k : string) (hs : list (string * string)) : option string :=
  match hs with
  | [] => None
  | (k', v) :: rest => if String.eqb k k' then Some v else header k rest
  end.

Definition is_heartbeat (r : AxiosRequest) : bool :=
  String.eqb (url r) "/internal/ai-connections".

(** The heartbeat request posted at clock reading [ts]. *)
Definition heartbeat_request (c : Client) (st : ConnectionStatus)
    (currentTaskId : option string) (ts : string) : AxiosRequest :=
  mergeConfig (cl_axios c) POST "/internal/ai-connections"
    (connection_body c st currentTaskId ts).

(** The primary request of a call, for the operations that go through
    [makeRequest]. *)
Definition primary_request (c : Client) (k : Call) : option AxiosRequest :=
  let ax := cl_axios c in
  let project := "/projects/" ++ projectId (cl_config c) in
  match k with
  | CallGetProjectContext =>
      Some (mergeConfig ax GET (project ++ "/context") JUndefined)
  | CallGetNextTask =>
      Some (mergeConfig ax GET (project ++ "/next-task") JUndefined)
  | CallStartTask taskId options =>
      Some (mergeConfig ax POST ("/tasks/" ++ taskId ++ "/start")
              (startTask_body c options))
  | CallUpdateProgress taskId p =>
      Some (mergeConfig ax POST ("/tasks/" ++ taskId ++ "/progress")
              (updateProgress_body p))
  | CallCompleteTask taskId completion =>
      Some (mergeConfig ax POST ("/tasks/" ++ taskId ++ "/complete")
              (completeTask_body completion))
  | CallCreateDiscussion discussion =>
      Some (mergeConfig ax POST (project ++ "/discuss")
              (createDiscussion_body c discussion))
  | CallHealthCheck => Some (mergeConfig ax GET "/health" JUndefined)
  | CallConnect | CallDisconnect | CallGetConnectionStatus => None
  end.

(* ================================================================== *)
(** ** What the specification says, in its own words *)
(* ================================================================== *)

(** The [error] field as the specification words it: the body's [error]
    if present, otherwise the body's [message] if present, otherwise the
    message of the transport. *)
Definition error_by_presence (err : AxiosError) : value :=
  let body := of_option resp_data (ae_response err) in
  if present (field body "error") then field body "error"
  else if present (field body "message") then field body "message"
  else JStr (ae_message err).

(** The [error] field as the code computes it: truthiness decides, a
    falsy body is skipped as a whole, and an empty transport message is
    replaced by a fixed text. *)
Definition error_by_truthiness (err : AxiosError) : value :=
  let fallback :=
    if String.eqb (ae_message err) EmptyString
    then JStr "Unknown API error"
    else JStr (ae_message err) in
  match ae_response err with
  | None => fallback
  | Some r =>
      let body := resp_data r in
      if truthy body then
        if truthy (field body "error") then field body "error"
        else if truthy (field body "message") then field body "message"
        else fallback
      else fallback
  end.


(** A percentage: a finite number between 0 and 100, bounds included. *)
Definition percentage (n : number) : Prop :=
  exists q : Q, n = NFin q /\ (0 <= q)%Q /\ (q <= 100)%Q.

(** Two argument objects that agree on every property but one. *)
Definition agree_except (k : string) (a b : value) : Prop :=
  (exists fa fb, a = JObj fa /\ b = JObj fb) /\
  forall k', k' <> k -> field a k' = field b k'.

(** A computation keeps [P] when, started with a trace of requests that
    all satisfy [P], it leaves such a trace. *)
Definition keeps {A : Type} (P : AxiosRequest -> Prop) (m : M A) : Prop :=
  forall env w, Forall P (trace w) -> Forall P (trace (snd (m env w))).

(** The three fixed headers of a client built from [config]. *)
Definition fixed_headers (config : BuildableConfig) (c : Client)
    (r : AxiosRequest) : Prop :=
  header "Authorization" (headers r) = Some ("Bearer " ++ apiKey config) /\
  header "X-AI-Assistant-ID" (headers r) = Some (cl_aiAssistantId c) /\
  header "Content-Type" (headers r) = Some "application/json".

(** [{ ...p, status_update: s }]. *)
Definition with_status_update (s : string) (p : ProgressUpdate)
    : ProgressUpdate :=
  {| progress := progress p;
     status_update := s;
     completed_steps := completed_steps p;
     current_step := current_step p;
     challenges := challenges p;
     time_spent := time_spent p;
     files_modified := files_modified p;
     notes := notes p |}.

(** The keys of an object, in order. *)
Definition keys (v : value) : list string :=
  match v with
  | JObj fs => map fst fs
  | _ => []
  end.

(* ================================================================== *)
(** ** Sample configurations and backends *)
(* ================================================================== *)

Module Sample.

Definition config : BuildableConfig :=
  {| apiUrl := "https://bldbl.dev/api";
     apiKey := "k";
     projectId := "p";
     aiAssistantId := None;
     timeout := None |}.

Definition no_options : ClientOptions :=
  {| retryAttempts := None;
     retryDelay := None;
     enableRealTimeUpdates := None;
     logLevel := None |}.

Definition the_client : Client :=
  createBuildableClient config no_options
    "3f2b8c1e-9d4a-4c6b-8a1f-0e5d7c9b2a34".

Definition server : BuildableMCPServer := {| client := Some the_client |}.

(** A backend that settles every request the same way. *)
Definition always (o : Outcome) : Env :=
  {| transport := fun _ _ => o;
     clock := fun _ => "2024-01-01T00:00:00.000Z";
     stringify := fun v => v |}.

(** A backend that fulfils everything except the heartbeat. *)
Definition heartbeat_down (r : AxiosResponse) (err : AxiosError) : Env :=
  {| transport := fun _ req =>
       if is_heartbeat req then Rejected err else Fulfilled r;
     clock := fun _ => "2024-01-01T00:00:00.000Z";
     stringify := fun v => v |}.

Definition unauthorized : AxiosError :=
  {| ae_message := "Request failed with status code 401";
     ae_response :=
       Some {| status := 401;
               resp_data := JObj [ ("error", JStr "invalid key") ] |} |}.

(** A 500 whose body has an empty [error] next to a [message]. *)
Definition empty_error : AxiosError :=
  {| ae_message := "Request failed with status code 500";
     ae_response :=
       Some {| status := 500;
               resp_data := JObj [ ("error", JStr EmptyString);
                                   ("message", JStr "quota exceeded") ] |} |}.

Definition network_down : AxiosError :=
  {| ae_message := "connect ECONNREFUSED 127.0.0.1:443";
     ae_response := None |}.


Definition no_task : AxiosResponse :=
  {| status := 200;
     resp_data := JObj [ ("success", JBool true);
                         ("message", JStr "No tasks available") ] |}.

Definition started : AxiosResponse :=
  {| status := 200;
     resp_data := JObj [ ("success", JBool true);
                         ("task_id", JStr "t1");
                         ("message", JStr "started");
                         ("started_at", JStr "2024-01-01T00:00:00.000Z") ] |}.

Definition tdd : StartTaskOptions :=
  {| sto_approach := Some "tdd";
     sto_estimated_duration := None;
     sto_notes := None |}.

Definition progress_args (pct : Q) (status : string) : value :=
  JObj [ ("task_id", JStr "t1");
         ("progress", JNum (NFin pct));
         ("status_update", JStr status);
         ("files_modified", JArr [ JStr "src/a.ts" ]) ].

Definition question : CreateDiscussionRequest :=
  {| topic := "Which database?";
     message := "Postgres or SQLite?";
     context := None |}.

Definition half_done : ProgressUpdate :=
  {| progress := NFin (50 # 1);
     status_update := "halfway";
     completed_steps := Some [ "design" ];
     current_step := Some "implementation";
     challenges := Some [ "flaky test" ];
     time_spent := Some (NFin (30 # 1));
     files_modified := Some [ "src/a.ts" ];
     notes := None |}.

End Sample.

(* ================================================================== *)
(** ** cli.ts: start-up *)
(* ================================================================== *)

(** [process.env]: a variable is unset or holds a string. *)
Definition ProcessEnv : Type := string -> option string.

(** The configuration [initialize] reads from the environment; each
    variable falls back to its default when unset or empty. *)
Definition initialize_config (penv : ProcessEnv) : BuildableConfig :=
  {| apiUrl := str_or (penv "BUILDABLE_API_URL") "https://bldbl.dev/api";
     apiKey := str_or (penv "BUILDABLE_API_KEY") EmptyString;
     projectId := str_or (penv "BUILDABLE_PROJECT_ID") EmptyString;
     aiAssistantId :=
       Some (str_or (penv "BUILDABLE_AI_ASSISTANT_ID") "cursor-ide");
     timeout := None |}.

(** The cast of [BUILDABLE_LOG_LEVEL] to a log level.  The source does
    not check the string; one that names no level has no counterpart in
    [LogLevel] and is kept as absent.  The options are never read after
    construction. *)
Definition cast_log_level (s : string) : option LogLevel :=
  if String.eqb s "debug" then Some Debug
  else if String.eqb s "info" then Some Info
  else if String.eqb s "warn" then Some Warn
  else if String.eqb s "error" then Some Error
  else None.

Definition initialize_options (penv : ProcessEnv) : ClientOptions :=
  {| retryAttempts := None;
     retryDelay := None;
     enableRealTimeUpdates :=
       Some (match penv "BUILDABLE_REAL_TIME" with
             | Some s => String.eqb s "true"
             | None => false
             end);
     logLevel :=
       cast_log_level (str_or (penv "BUILDABLE_LOG_LEVEL") "info") |}.

Definition api_key_required : Exn :=
  ExnError "BUILDABLE_API_KEY environment variable is required".

Definition project_id_required : Exn :=
  ExnError "BUILDABLE_PROJECT_ID environment variable is required".

(** A variable of the environment that is unset or empty. *)
Definition unset_or_empty (o : option string) : Prop :=
  o = None \/ o = Some EmptyString.

(** [initialize()]: the server as it is afterwards.  The warning written
    to the error stream when the backend cannot be reached is not part
    of the state. *)
Definition initialize (penv : ProcessEnv) (uuid : string)
    : M BuildableMCPServer :=
  let config := initialize_config penv in
  if negb (str_nonempty (apiKey config)) then throw api_key_required
  else if negb (str_nonempty (projectId config)) then
    throw project_id_required
  else
    let options := initialize_options penv in
    let c := createBuildableClient config options uuid in
    try_catch
      (healthCheck c ;;; connect c)
      (fun _ => ret tt) ;;;
    ret {| client := Some c |}.

(* ================================================================== *)
(** ** index.ts *)
(* ================================================================== *)

(** The argument of [setupBuildable]. *)
Record SetupConfig : Type := {
  su_apiKey : string;
  su_projectId : string;
  su_apiUrl : option string;
  su_aiAssistantId : option string
}.

(** [options = {}], the default of the constructor. *)
Definition empty_options : ClientOptions :=
  {| retryAttempts := None;
     retryDelay := None;
     enableRealTimeUpdates := None;
     logLevel := None |}.

Definition setupBuildable (config : SetupConfig) (uuid : string) : Client :=
  createBuildableClient
    {| apiUrl := str_or (su_apiUrl config) "https://bldbl.dev/api";
       apiKey := su_apiKey config;
       projectId := su_projectId config;
       aiAssistantId :=
         Some (str_or (su_aiAssistantId config) "buildable-client");
       timeout := None |}
    empty_options uuid.

(* ================================================================== *)
(** ** Calls and what follows them *)
(* ================================================================== *)

(** A call on the client together with the value it resolves to;
    [connect] and [disconnect] resolve to [undefined]. *)
Definition invoke (c : Client) (k : Call) : M value :=
  match k with
  | CallGetProjectContext => getProjectContext c
  | CallGetNextTask => getNextTask c
  | CallStartTask taskId options => startTask c taskId options
  | CallUpdateProgress taskId p => updateProgress c taskId p
  | CallCompleteTask taskId completion => completeTask c taskId completion
  | CallCreateDiscussion discussion => createDiscussion c discussion
  | CallHealthCheck => healthCheck c
  | CallConnect => connect c ;;; ret JUndefined
  | CallDisconnect => disconnect c ;;; ret JUndefined
  | CallGetConnectionStatus => getConnectionStatus c
  end.

(** Whether the part of a fulfilled response that an operation puts into
    its log message can be converted to a string: the title of the next
    task for [getNextTask], the id of the discussion for
    [createDiscussion]; the other operations put nothing of the response
    into a message. *)
Definition log_converts (k : Call) (body : value) : bool :=
  match k with
  | CallGetNextTask =>
      if truthy (field body "task")
      then convertible (field (field body "task") "title")
      else true
  | CallCreateDiscussion _ => convertible (field body "discussion_id")
  | _ => true
  end.

(** The heartbeat that follows a successful primary request, posted at
    clock reading [ts]: "working" on the task after [startTask] and
    [updateProgress], "connected" without a task after [completeTask],
    none after the other operations. *)
Definition follow_up (c : Client) (k : Call) (ts : string)
    : list AxiosRequest :=
  match k with
  | CallStartTask taskId _ | CallUpdateProgress taskId _ =>
      [heartbeat_request c Working (Some taskId) ts]
  | CallCompleteTask _ _ => [heartbeat_request c Connected None ts]
  | _ => []
  end.

(** The request of [getConnectionStatus]. *)
Definition connections_request (c : Client) : AxiosRequest :=
  mergeConfig (cl_axios c) GET
    ("/projects/" ++ projectId (cl_config c) ++ "/ai-connections")
    JUndefined.

(** An entry of the connection list that [find] can inspect and passes
    over: not [null], and its [ai_assistant_id] is not the given id. *)
Definition other_connection (id : string) (conn : value) : Prop :=
  nullish conn = false /\
  strict_eq_string (field conn "ai_assistant_id") id = false.

(** The names under which [setupTools] registers the tools. *)
Definition tool_names : list string := map name setupTools.

(** What the caller of a tool is given with an error result: the
    message of an [Error]; for a thrown value that is no [Error], its
    string, which for the plain object of an APIError is
    "[object Object]".  The message of a TypeError is the engine's. *)
Definition error_text (e : Exn) : option string :=
  match e with
  | ExnAPIError _ => Some "[object Object]"
  | ExnError msg => Some msg
  | ExnTypeError => None
  end.

(** The answer to a [tools/call] as the caller sees it. *)
Inductive Reply : Type :=
| ReplyResult (result : value)
| ReplyError (text : option string)
| ReplyInvalidArguments
| ReplyToolNotFound.

Definition reply (r : CallToolResult) : Reply :=
  match r with
  | ToolResult result => ReplyResult result
  | ToolIsError thrown => ReplyError (error_text thrown)
  | InvalidArguments => ReplyInvalidArguments
  | ToolNotFound => ReplyToolNotFound
  end.

(** The ways a [tools/call] can end for a connected server: with the
    serialised value of the client call, with the error result of an
    APIError or of a TypeError, with refused arguments, with an unknown
    tool. *)
Definition settled (env : Env) (r : CallToolResult) : Prop :=
  match r with
  | ToolResult v => exists body, v = text_content (stringify env body)
  | ToolIsError e =>
      (exists a, e = ExnAPIError a /\
                 reply r = ReplyError (Some "[object Object]")) \/
      e = ExnTypeError
  | InvalidArguments | ToolNotFound => True
  end.

(** The arguments a [tools/call] request can carry: an object, or
    nothing. *)
Definition request_arguments (args : value) : Prop :=
  args = JUndefined \/ args = JNull \/ exists fs, args = JObj fs.

(** The tools registered with the empty shape. *)
Definition argument_free (n : string) : Prop :=
  In n [ "get_project_context"; "get_next_task"; "health_check" ].

(** The call on the client that a [tools/call] request stands for: the
    tool of that name, its arguments parsed and handed over as the
    callback does; none for an unknown tool or arguments the schema
    refuses. *)
Definition tool_call (n : string) (args : value) : option Call :=
  if String.eqb n "get_project_context" then
    _ <-? inputSchema get_project_context args ;;
    Some CallGetProjectContext
  else if String.eqb n "get_next_task" then
    _ <-? inputSchema get_next_task args ;;
    Some CallGetNextTask
  else if String.eqb n "start_task" then
    a <-? inputSchema start_task args ;;
    Some (CallStartTask (st_task_id a)
            {| sto_approach := st_approach a;
               sto_estimated_duration := st_estimated_duration a;
               sto_notes := st_notes a |})
  else if String.eqb n "update_progress" then
    a <-? inputSchema update_progress args ;;
    Some (CallUpdateProgress (up_task_id a)
            {| progress := up_progress a;
               status_update := up_status_update a;
               completed_steps := up_completed_steps a;
               current_step := up_current_step a;
               challenges := up_challenges a;
               files_modified := up_files_modified a;
               time_spent := up_time_spent a;
               notes := up_notes a |})
  else if String.eqb n "complete_task" then
    a <-? inputSchema complete_task args ;;
    Some (CallCompleteTask (ct_task_id a)
            {| completion_notes := ct_completion_notes a;
               ctr_files_modified := strings_or_empty (ct_files_modified a);
               testing_completed := bool_or_false (ct_testing_completed a);
               documentation_updated :=
                 bool_or_false (ct_documentation_updated a);
               ctr_time_spent := number_or_zero (ct_time_spent a);
               challenges_faced := None;
               lessons_learned := None;
               next_recommendations := None |})
  else if String.eqb n "create_discussion" then
    a <-? inputSchema create_discussion args ;;
    Some (CallCreateDiscussion (create_discussion_request a))
  else if String.eqb n "health_check" then
    _ <-? inputSchema health_check args ;;
    Some CallHealthCheck
  else None.

(** How the dispatcher reports what the client call did. *)
Definition tool_outcome (env : Env) (r : Result value)
    : Result CallToolResult :=
  match r with
  | Returned v => Returned (ToolResult (text_content (stringify env v)))
  | Thrown e => Returned (ToolIsError e)
  end.

Module Scenario.

(** An environment with the two required variables. *)
Definition configured : ProcessEnv :=
  fun k =>
    if String.eqb k "BUILDABLE_API_KEY" then Some "bp_key"
    else if String.eqb k "BUILDABLE_PROJECT_ID" then Some "proj_1"
    else None.

(** An environment without the API key. *)
Definition keyless : ProcessEnv :=
  fun k =>
    if String.eqb k "BUILDABLE_PROJECT_ID" then Some "proj_1" else None.

(** An environment without the project id. *)
Definition projectless : ProcessEnv :=
  fun k =>
    if String.eqb k "BUILDABLE_API_KEY" then Some "bp_key" else None.

Definition server_error : AxiosError :=
  {| ae_message := "Request failed with status code 503";
     ae_response := Some {| status := 503; resp_data := JStr "down" |} |}.

Definition mine : value :=
  JObj [ ("ai_assistant_id", JStr "ai_3f2b8c1e");
         ("status", JStr "working");
         ("connected_at", JStr "2024-01-01T00:00:00.000Z");
         ("last_activity_at", JStr "2024-01-01T00:05:00.000Z") ].

Definition theirs : value :=
  JObj [ ("ai_assistant_id", JStr "cursor-ide");
         ("status", JStr "connected");
         ("connected_at", JStr "2024-01-01T00:00:00.000Z");
         ("last_activity_at", JStr "2024-01-01T00:01:00.000Z") ].

Definition connections (l : list value) : AxiosResponse :=
  {| status := 200; resp_data := JObj [ ("connections", JArr l) ] |}.

Definition completion_args : value :=
  JObj [ ("task_id", JStr "t1");
         ("completion_notes", JStr "done") ].

Definition discussion_args (u : string) : value :=
  JObj [ ("title", JStr "Which database?");
         ("content", JStr "Postgres or SQLite?");
         ("urgency", JStr u) ].

Definition finished : CompleteTaskRequest :=
  {| completion_notes := "done";
     ctr_files_modified := [ "src/a.ts" ];
     testing_completed := true;
     documentation_updated := false;
     ctr_time_spent := NFin (45 # 1);
     challenges_faced := None;
     lessons_learned := None;
     next_recommendations := None |}.

(** A next task whose title has a [toString] of its own. *)
Definition odd_title : AxiosResponse :=
  {| status := 200;
     resp_data :=
       JObj [ ("success", JBool true);
              ("task", JObj [ ("id", JStr "t9");
                              ("title", JObj [ ("toString", JNum (NFin (1 # 1))) ]) ]);
              ("message", JStr "next") ] |}.


Definition plain_setup : SetupConfig :=
  {| su_apiKey := "bp_key";
     su_projectId := "proj_1";
     su_apiUrl := None;
     su_aiAssistantId := None |}.

End Scenario.

(* ================================================================== *)
(** ** Basic facts: values *)
(* ================================================================== *)

Unset Implicit Arguments.

Create HintDb js discriminated.
#[local] Hint Unfold bind try_catch ret throw log now dateNow discard
  onRejected formatError json_stringify : js.

Lemma truthy_not_nullish (v : value) : truthy v = true -> nullish v = false.
Proof. destruct v; simpl; congruence. Qed.

Lemma or_truthy (a b : value) : truthy a = true -> Js.or a b = a.
Proof. unfold Js.or; intros ->; reflexivity. Qed.

Lemma or_falsy (a b : value) : truthy a = false -> Js.or a b = b.
Proof. unfold Js.or; intros ->; reflexivity. Qed.

Lemma or_message (msg : string) :
  Js.or (JStr msg) (JStr "Unknown API error") =
  if String.eqb msg EmptyString
  then JStr "Unknown API error"
  else JStr msg.
Proof. destruct msg; reflexivity. Qed.

(** [formatError] computes the truthiness-ordered choice. *)
Lemma formatErrorAt_error (ts : string) (err : AxiosError) :
  error (formatErrorAt ts err) = error_by_truthiness err.
Proof.
  unfold formatErrorAt, error_by_truthiness.
  destruct (ae_response err) as [r|]; simpl.
  - destruct (truthy (resp_data r)); simpl.
    + unfold Js.or at 1.
      destruct (truthy (field (resp_data r) "error")); [reflexivity|].
      unfold Js.or at 1.
      destruct (truthy (field (resp_data r) "message")); [reflexivity|].
      apply or_message.
    + apply or_message.
  - apply or_message.
Qed.

(* ================================================================== *)
(** ** Basic facts: one request *)
(* ================================================================== *)

Section OneRequest.

Variable env : Env.
Variable w : World.

Lemma skipn_app_length (A : Type) (l r : list A) :
  skipn (length l) (l ++ r)%list = r.
Proof. induction l; simpl; auto. Qed.

Lemma axios_request_fulfilled ax m u d r :
  transport env (trace w) (mergeConfig ax m u d) = Fulfilled r ->
  axios_request ax m u d env w =
  (Returned r,
   {| trace := (trace w ++ [mergeConfig ax m u d])%list;
      ticks := ticks w |}).
Proof. unfold axios_request; intros ->; reflexivity. Qed.

Lemma axios_request_rejected ax m u d err :
  transport env (trace w) (mergeConfig ax m u d) = Rejected err ->
  axios_request ax m u d env w =
  (Thrown (ExnAPIError (formatErrorAt (clock env (ticks w)) err)),
   {| trace := (trace w ++ [mergeConfig ax m u d])%list;
      ticks := S (ticks w) |}).
Proof. unfold axios_request; intros ->; reflexivity. Qed.

Lemma makeRequest_fulfilled c m u d r :
  transport env (trace w) (mergeConfig (cl_axios c) m u d) = Fulfilled r ->
  makeRequest c m u d env w =
  (Returned {| success := true;
               data := resp_data r;
               mcp_error := None;
               mcp_timestamp := clock env (S (S (ticks w))) |},
   {| trace := (trace w ++ [mergeConfig (cl_axios c) m u d])%list;
      ticks := S (S (S (ticks w))) |}).
Proof.
  intros H.
  unfold makeRequest, axios_request; autounfold with js; simpl.
  rewrite H; reflexivity.
Qed.

Lemma makeRequest_rejected c m u d err :
  transport env (trace w) (mergeConfig (cl_axios c) m u d) = Rejected err ->
  makeRequest c m u d env w =
  (Thrown (ExnAPIError (formatErrorAt (clock env (S (ticks w))) err)),
   {| trace := (trace w ++ [mergeConfig (cl_axios c) m u d])%list;
      ticks := S (S (S (ticks w))) |}).
Proof.
  intros H.
  unfold makeRequest, axios_request; autounfold with js; simpl.
  rewrite H; reflexivity.
Qed.

(** The heartbeat sends one request and returns, whatever the backend
    answers. *)
Lemma updateConnectionStatus_run c st tid :
  exists n,
    updateConnectionStatus c st tid env w =
    (Returned tt,
     {| trace :=
          (trace w ++ [heartbeat_request c st tid (clock env (ticks w))])%list;
        ticks := n |}).
Proof.
  unfold updateConnectionStatus, heartbeat_request, axios_post,
    axios_request.
  autounfold with js; simpl.
  match goal with
  | |- context [transport env ?t ?r] => destruct (transport env t r)
  end; simpl; eauto.
Qed.

End OneRequest.

(* ================================================================== *)
(** ** Error normalisation *)
(* ================================================================== *)

(** A primary operation whose request is rejected throws what
    [formatError] makes of the rejection. *)
Lemma primary_rejected env c k req err w :
  primary_request c k = Some req ->
  transport env (trace w) req = Rejected err ->
  run_call c k env w =
  (Thrown (ExnAPIError (formatErrorAt (clock env (S (ticks w))) err)),
   {| trace := (trace w ++ [req])%list; ticks := S (S (S (ticks w))) |}).
Proof.
  intros Hreq Hrej.
  destruct k; simpl in Hreq; inversion Hreq; subst req; clear Hreq;
    unfold run_call, getProjectContext, getNextTask, startTask,
      updateProgress, completeTask, createDiscussion, healthCheck;
    autounfold with js; simpl;
    rewrite (makeRequest_rejected _ _ _ _ _ _ _ Hrej); reflexivity.
Qed.

(** C1 (as amended): when the request of a primary operation is rejected,
    by a network error or by a non-2xx answer, the operation throws an
    APIError whose [error] is the body's [error] if that is truthy,
    otherwise the body's [message] if that is truthy, otherwise the
    transport's message, or a fixed text when that message is empty; a
    missing or falsy body leaves only the last two.  For a 401 with body
    {"error":"invalid key"} the [error] is "invalid key". *)
Theorem C1_error_normalisation env c k req err w :
  primary_request c k = Some req ->
  transport env (trace w) req = Rejected err ->
  exists e,
    outcome_of (run_call c k) env w = Thrown (ExnAPIError e) /\
    error e = error_by_truthiness err /\
    (ae_response err =
       Some {| status := 401;
               resp_data := JObj [ ("error", JStr "invalid key") ] |} ->
     error e = JStr "invalid key").
Proof.
  intros Hreq Hrej.
  exists (formatErrorAt (clock env (S (ticks w))) err).
  unfold outcome_of.
  rewrite (primary_rejected _ _ _ _ _ _ Hreq Hrej); simpl.
  split; [reflexivity|].
  split; [apply formatErrorAt_error|].
  intros Hbody.
  rewrite formatErrorAt_error.
  unfold error_by_truthiness; rewrite Hbody; reflexivity.
Qed.

Lemma C1_error_normalisation_witness :
  exists e,
    outcome_of (run_call Sample.the_client CallGetProjectContext)
      (Sample.always (Rejected Sample.unauthorized)) initial_world =
    Thrown (ExnAPIError e) /\
    error e = JStr "invalid key".
Proof.
  destruct (C1_error_normalisation
              (Sample.always (Rejected Sample.unauthorized))
              Sample.the_client CallGetProjectContext _
              Sample.unauthorized initial_world eq_refl eq_refl)
    as [e [Hthrown [_ Hkey]]].
  exists e; split; [exact Hthrown | exact (Hkey eq_refl)].
Defined.

(** C1 as stated fails: with a body whose [error] is the empty string
    and whose [message] is "quota exceeded", the [error] property is
    present, and the APIError carries the [message] instead. *)
Lemma C1_presence_counterexample :
  ~ (forall env c k req err w,
       primary_request c k = Some req ->
       transport env (trace w) req = Rejected err ->
       exists e,
         outcome_of (run_call c k) env w = Thrown (ExnAPIError e) /\
         error e = error_by_presence err).
Proof.
  intros H.
  destruct (H (Sample.always (Rejected Sample.empty_error))
              Sample.the_client CallGetProjectContext _
              Sample.empty_error initial_world eq_refl eq_refl)
    as [e [Hthrown Herr]].
  vm_compute in Hthrown.
  inversion Hthrown; subst e.
  vm_compute in Herr.
  discriminate Herr.
Qed.

(* ================================================================== *)
(** ** The response envelope *)
(* ================================================================== *)




(* ================================================================== *)
(** ** Heartbeats *)
(* ================================================================== *)

Lemma sent_appended {A : Type} (m : M A) env w l :
  trace (snd (m env w)) = (trace w ++ l)%list ->
  sent m env w = l.
Proof.
  intros H; unfold sent; rewrite H.
  apply skipn_app_length.
Qed.

Lemma sent_one {A : Type} (m : M A) env w (x : Result A) req n :
  m env w = (x, {| trace := (trace w ++ [req])%list; ticks := n |}) ->
  sent m env w = [req].
Proof.
  intros H; apply sent_appended; rewrite H; reflexivity.
Qed.

Lemma sent_two {A : Type} (m : M A) env w (x : Result A) r1 r2 n :
  m env w =
    (x, {| trace := ((trace w ++ [r1]) ++ [r2])%list; ticks := n |}) ->
  sent m env w = [r1; r2].
Proof.
  intros H; apply sent_appended; rewrite H; simpl.
  rewrite <- app_assoc; reflexivity.
Qed.

Lemma disconnect_run env c w :
  exists n,
    disconnect c env w =
    (Returned tt,
     {| trace :=
          (trace w ++
           [heartbeat_request c Disconnected None (clock env (ticks w))])%list;
        ticks := n |}).
Proof.
  destruct (updateConnectionStatus_run env w c Disconnected None)
    as [n Hn].
  exists n.
  unfold disconnect; autounfold with js; simpl.
  rewrite Hn; reflexivity.
Qed.

(** C6: [disconnect] returns normally whatever the heartbeat request
    meets: a fulfilled answer, a network error or a non-2xx answer. *)
Theorem C6_disconnect_never_throws env c w :
  outcome_of (disconnect c) env w = Returned tt /\
  exists ts, sent (disconnect c) env w =
             [heartbeat_request c Disconnected None ts].
Proof.
  destruct (disconnect_run env c w) as [n Hn].
  split.
  - unfold outcome_of; rewrite Hn; reflexivity.
  - eexists; exact (sent_one _ _ _ _ _ _ Hn).
Qed.

Lemma startTask_fulfilled env c taskId options w resp :
  transport env (trace w)
    (mergeConfig (cl_axios c) POST ("/tasks/" ++ taskId ++ "/start")
       (startTask_body c options)) = Fulfilled resp ->
  exists n,
    startTask c taskId options env w =
    (Returned (resp_data resp),
     {| trace :=
          ((trace w ++
            [mergeConfig (cl_axios c) POST ("/tasks/" ++ taskId ++ "/start")
               (startTask_body c options)]) ++
           [heartbeat_request c Working (Some taskId)
              (clock env (S (S (S (ticks w)))))])%list;
        ticks := n |}).
Proof.
  intros Ht.
  unfold startTask; autounfold with js; cbv beta.
  rewrite (makeRequest_fulfilled _ _ _ _ _ _ _ Ht); cbv beta iota.
  match goal with
  | |- context [updateConnectionStatus c ?s ?t env ?w'] =>
      destruct (updateConnectionStatus_run env w' c s t) as [n Hn]
  end.
  exists n; rewrite Hn; reflexivity.
Qed.

(** C7: when the primary request of [startTask] is fulfilled, the call
    returns the body of that response and sends exactly one heartbeat,
    with status "working" and [current_task_id] the task id; this holds
    for every answer to the heartbeat, so its failure neither changes
    the result nor makes the call throw. *)
Theorem C7_startTask_heartbeat env c taskId options w resp :
  transport env (trace w)
    (mergeConfig (cl_axios c) POST ("/tasks/" ++ taskId ++ "/start")
       (startTask_body c options)) = Fulfilled resp ->
  outcome_of (startTask c taskId options) env w =
    Returned (resp_data resp) /\
  exists primary hb,
    sent (startTask c taskId options) env w = [primary; hb] /\
    is_heartbeat primary = false /\
    is_heartbeat hb = true /\
    field (req_data hb) "status" = JStr "working" /\
    field (req_data hb) "current_task_id" = JStr taskId.
Proof.
  intros Ht.
  destruct (startTask_fulfilled env c taskId options w resp Ht) as [n Hn].
  split.
  - unfold outcome_of; rewrite Hn; reflexivity.
  - do 2 eexists.
    split; [exact (sent_two _ _ _ _ _ _ _ Hn)|].
    repeat split; reflexivity.
Qed.

Lemma C7_startTask_heartbeat_witness :
  outcome_of (startTask Sample.the_client "t1" Sample.tdd)
    (Sample.heartbeat_down Sample.started Sample.network_down)
    initial_world =
  Returned (resp_data Sample.started).
Proof.
  exact (proj1 (C7_startTask_heartbeat
                  (Sample.heartbeat_down Sample.started Sample.network_down)
                  Sample.the_client "t1" Sample.tdd initial_world
                  Sample.started eq_refl)).
Defined.

(* ================================================================== *)
(** ** No task available *)
(* ================================================================== *)

(** C9: when the request of [getNextTask] is fulfilled and the body has
    no [task], the call returns that body, still without a [task]; it
    does not throw. *)
Theorem C9_no_task_is_success env c w resp :
  transport env (trace w)
    (mergeConfig (cl_axios c) GET
       ("/projects/" ++ projectId (cl_config c) ++ "/next-task")
       JUndefined) = Fulfilled resp ->
  field (resp_data resp) "task" = JUndefined ->
  exists v,
    outcome_of (getNextTask c) env w = Returned v /\
    v = resp_data resp /\
    present (field v "task") = false.
Proof.
  intros Ht Hnone.
  exists (resp_data resp).
  split; [|split; [reflexivity | rewrite Hnone; reflexivity]].
  unfold outcome_of, getNextTask; autounfold with js; cbv beta.
  rewrite (makeRequest_fulfilled _ _ _ _ _ _ _ Ht); simpl.
  rewrite Hnone; reflexivity.
Qed.

Lemma C9_no_task_is_success_witness :
  exists v,
    outcome_of (getNextTask Sample.the_client)
      (Sample.always (Fulfilled Sample.no_task)) initial_world =
    Returned v /\
    v = resp_data Sample.no_task /\
    present (field v "task") = false.
Proof.
  exact (C9_no_task_is_success (Sample.always (Fulfilled Sample.no_task))
           Sample.the_client initial_world Sample.no_task
           eq_refl eq_refl).
Defined.

(* ================================================================== *)
(** ** The fixed headers *)
(* ================================================================== *)

Section Keeps.

Variable P : AxiosRequest -> Prop.

Lemma keeps_ret {A : Type} (a : A) : keeps P (ret a).
Proof. intros env w H; exact H. Qed.

Lemma keeps_throw {A : Type} (e : Exn) : keeps P (@throw A e).
Proof. intros env w H; exact H. Qed.

Lemma keeps_log (l : LogLevel) : keeps P (log l).
Proof. intros env w H; exact H. Qed.

Lemma keeps_now : keeps P now.
Proof. intros env w H; exact H. Qed.

Lemma keeps_dateNow : keeps P dateNow.
Proof. intros env w H; exact H. Qed.

Lemma keeps_json_stringify (v : value) : keeps P (json_stringify v).
Proof. intros env w H; exact H. Qed.

Lemma keeps_bind {A B : Type} (m : M A) (k : A -> M B) :
  keeps P m -> (forall a, keeps P (k a)) -> keeps P (bind m k).
Proof.
  intros Hm Hk env w H.
  unfold bind.
  specialize (Hm env w H).
  destruct (m env w) as [[a|e] w']; simpl in *.
  - apply Hk; exact Hm.
  - exact Hm.
Qed.

Lemma keeps_try_catch {A : Type} (m : M A) (h : Exn -> M A) :
  keeps P m -> (forall e, keeps P (h e)) -> keeps P (try_catch m h).
Proof.
  intros Hm Hh env w H.
  unfold try_catch.
  specialize (Hm env w H).
  destruct (m env w) as [[a|e] w']; simpl in *.
  - exact Hm.
  - apply Hh; exact Hm.
Qed.

Lemma keeps_if {A : Type} (b : bool) (m1 m2 : M A) :
  keeps P m1 -> keeps P m2 -> keeps P (if b then m1 else m2).
Proof. destruct b; auto. Qed.

Lemma keeps_member (v : value) (k : string) : keeps P (member v k).
Proof. unfold member; apply keeps_if; [apply keeps_throw | apply keeps_ret]. Qed.

Lemma keeps_find_connection (id : string) (l : list value) :
  keeps P (find_connection id l).
Proof.
  induction l as [|conn rest IH]; simpl.
  - apply keeps_ret.
  - apply keeps_bind; [apply keeps_member|].
    intros a; apply keeps_if; [apply keeps_ret | exact IH].
Qed.

Lemma keeps_axios_request ax m u d :
  P (mergeConfig ax m u d) -> keeps P (axios_request ax m u d).
Proof.
  intros Hreq env w H.
  unfold axios_request.
  destruct (transport env (trace w) (mergeConfig ax m u d)); simpl;
    apply Forall_app; split; auto.
Qed.

End Keeps.

Create HintDb keeps.
#[local] Hint Resolve keeps_ret keeps_throw keeps_log keeps_now
  keeps_dateNow keeps_json_stringify keeps_member keeps_find_connection
  : keeps.

Ltac keeps_steps :=
  repeat first
    [ solve [auto with keeps]
    | apply keeps_bind; [|intro]
    | apply keeps_try_catch; [|intro]
    | apply keeps_if
    | apply keeps_ret ].

Section ClientKeeps.

Variable c : Client.
Variable P : AxiosRequest -> Prop.
Hypothesis from_instance : forall m u d, P (mergeConfig (cl_axios c) m u d).

Lemma keeps_makeRequest m u d : keeps P (makeRequest c m u d).
Proof.
  unfold makeRequest; keeps_steps.
  apply keeps_axios_request; apply from_instance.
Qed.

Lemma keeps_updateConnectionStatus st tid :
  keeps P (updateConnectionStatus c st tid).
Proof.
  unfold updateConnectionStatus, axios_post; keeps_steps.
  apply keeps_axios_request; apply from_instance.
Qed.

Lemma keeps_getConnectionStatus : keeps P (getConnectionStatus c).
Proof.
  unfold getConnectionStatus, axios_get; keeps_steps.
  - apply keeps_axios_request; apply from_instance.
  - match goal with
    | |- keeps P (match ?v with _ => _ end) => destruct v
    end; keeps_steps.
Qed.

Lemma keeps_run_call k : keeps P (run_call c k).
Proof.
  pose proof keeps_makeRequest.
  pose proof keeps_updateConnectionStatus.
  pose proof keeps_getConnectionStatus.
  destruct k; simpl;
    unfold discard, getProjectContext, getNextTask, startTask,
      updateProgress, completeTask, createDiscussion, healthCheck,
      connect, disconnect;
    keeps_steps.
Qed.

Lemma keeps_run_calls env ks :
  forall w, Forall P (trace w) -> Forall P (trace (run_calls c ks env w)).
Proof.
  induction ks as [|k rest IH]; intros w H; simpl.
  - exact H.
  - apply IH; apply keeps_run_call; exact H.
Qed.

End ClientKeeps.

(** C3: every request a client sends over a sequence of calls carries
    the headers set at construction: [Authorization] with the bearer
    token of the configuration, [X-AI-Assistant-ID] with the assistant
    id of the client, [Content-Type: application/json]; the header list
    is the one of the axios instance on every request. *)
Theorem C3_fixed_headers env config options uuid ks :
  let c := constructor config options uuid in
  Forall (fun r => fixed_headers config c r /\
                   headers r = ax_headers (cl_axios c))
         (trace (run_calls c ks env initial_world)).
Proof.
  intros c.
  apply keeps_run_calls.
  - intros m u d; split; [|reflexivity].
    unfold fixed_headers; simpl; auto.
  - constructor.
Qed.

(* ================================================================== *)
(** ** Schema validation of update_progress *)
(* ================================================================== *)

Lemma skipn_length_all (A : Type) (l : list A) : skipn (length l) l = [].
Proof. induction l; simpl; auto. Qed.

Lemma sent_nothing {A : Type} (m : M A) env w (x : Result A) :
  m env w = (x, w) -> sent m env w = [].
Proof.
  intros H; unfold sent; rewrite H; simpl.
  apply skipn_length_all.
Qed.

(** What [z.number().min(0).max(100)] accepts is a percentage. *)
Lemma parse_number_percentage (n n' : number) :
  Zod.parse_number (Zod.max (100 # 1) (Zod.min (0 # 1) Zod.number))
    (JNum n) = Some n' ->
  percentage n.
Proof.
  destruct n as [q| | |]; simpl; try discriminate.
  rewrite !negb_involutive.
  destruct (Qle_bool (0 # 1) q) eqn:Hlo; simpl; try discriminate.
  destruct (Qle_bool q (100 # 1)) eqn:Hhi; simpl; try discriminate.
  intros _.
  exists q; repeat split; apply Qle_bool_iff; assumption.
Qed.

Lemma find_update_progress :
  find_tool setupTools "update_progress" = Some update_progress.
Proof. reflexivity. Qed.

Lemma find_create_discussion :
  find_tool setupTools "create_discussion" = Some create_discussion.
Proof. reflexivity. Qed.

(** C4: a call of [update_progress] whose [progress] is a number outside
    \[0,100\] ends in the dispatcher with an invalid-arguments error: the
    callback does not run (the result is the same with or without a
    client) and no request is sent. *)
Theorem C4_progress_out_of_range_rejected env this args n w :
  field args "progress" = JNum n ->
  ~ percentage n ->
  callTool this "update_progress" args env w =
    (Returned InvalidArguments, w) /\
  sent (callTool this "update_progress" args) env w = [].
Proof.
  intros Hprog Hout.
  assert (Hrun : callTool this "update_progress" args env w =
                 (Returned InvalidArguments, w)).
  { unfold callTool; rewrite find_update_progress.
    change (inputSchema update_progress) with update_progress_schema.
    unfold update_progress_schema, Zod.object.
    destruct args; try reflexivity.
    destruct (Zod.string (field (JObj fields) "task_id"));
      [|reflexivity].
    rewrite Hprog.
    destruct (Zod.parse_number _ (JNum n)) as [n'|] eqn:Hparse;
      [|reflexivity].
    exfalso; apply Hout; exact (parse_number_percentage _ _ Hparse). }
  split; [exact Hrun | exact (sent_nothing _ _ _ _ Hrun)].
Qed.

Lemma not_percentage_150 : ~ percentage (NFin (150 # 1)).
Proof.
  intros [q [Heq [_ Hhi]]].
  inversion Heq; subst q.
  revert Hhi; unfold Qle; simpl; lia.
Qed.

Lemma not_percentage_minus_1 : ~ percentage (NFin (-1 # 1)).
Proof.
  intros [q [Heq [Hlo _]]].
  inversion Heq; subst q.
  revert Hlo; unfold Qle; simpl; lia.
Qed.

Lemma C4_progress_out_of_range_rejected_witness :
  sent (callTool Sample.server "update_progress"
          (Sample.progress_args (150 # 1) "almost")) 
       (Sample.always (Fulfilled Sample.started)) initial_world = [] /\
  sent (callTool Sample.server "update_progress"
          (Sample.progress_args (-1 # 1) "almost")) 
       (Sample.always (Fulfilled Sample.started)) initial_world = [].
Proof.
  split.
  - exact (proj2 (C4_progress_out_of_range_rejected
                    (Sample.always (Fulfilled Sample.started))
                    Sample.server
                    (Sample.progress_args (150 # 1) "almost")
                    (NFin (150 # 1)) initial_world
                    eq_refl not_percentage_150)).
  - exact (proj2 (C4_progress_out_of_range_rejected
                    (Sample.always (Fulfilled Sample.started))
                    Sample.server
                    (Sample.progress_args (-1 # 1) "almost")
                    (NFin (-1 # 1)) initial_world
                    eq_refl not_percentage_minus_1)).
Defined.

(* ================================================================== *)
(** ** Request bodies *)
(* ================================================================== *)

Lemma createDiscussion_trace env c d w :
  trace (snd (createDiscussion c d env w)) =
  (trace w ++
   [mergeConfig (cl_axios c) POST
      ("/projects/" ++ projectId (cl_config c) ++ "/discuss")
      (createDiscussion_body c d)])%list.
Proof.
  unfold createDiscussion; autounfold with js; cbv beta.
  match goal with
  | |- context [makeRequest c ?m ?u ?b env w] =>
      destruct (transport env (trace w) (mergeConfig (cl_axios c) m u b))
        as [resp|err] eqn:Ht;
      [ rewrite (makeRequest_fulfilled _ _ _ _ _ _ _ Ht)
      | rewrite (makeRequest_rejected _ _ _ _ _ _ _ Ht) ]
  end; cbv beta iota; unfold to_string;
    try match goal with
        | |- context [convertible ?v] => destruct (convertible v)
        end;
    reflexivity.
Qed.

Lemma createDiscussion_body_default c d :
  opt_chain (context d) urgency = None ->
  field (createDiscussion_body c d) "urgency" = JStr "medium" /\
  field (field (createDiscussion_body c d) "context") "urgency" =
    JStr "medium".
Proof.
  intros H; unfold createDiscussion_body; simpl.
  rewrite H; split; reflexivity.
Qed.

(** The dispatcher adds no request of its own to those of the client. *)
Lemma callTool_create_discussion_trace env c args a w :
  create_discussion_schema args = Some a ->
  trace (snd (callTool {| client := Some c |} "create_discussion" args
                env w)) =
  trace (snd (createDiscussion c (create_discussion_request a) env w)).
Proof.
  intros Hparse.
  unfold callTool; rewrite find_create_discussion.
  change (inputSchema create_discussion) with create_discussion_schema.
  rewrite Hparse.
  unfold create_discussion, callback; autounfold with js; simpl.
  destruct (createDiscussion c (create_discussion_request a) env w)
    as [[v|e] w']; reflexivity.
Qed.

Lemma create_discussion_schema_urgency args a :
  create_discussion_schema args = Some a ->
  field args "urgency" = JUndefined ->
  cd_urgency a = None.
Proof.
  unfold create_discussion_schema, Zod.object.
  destruct args; try discriminate.
  intros Hparse Hnone; rewrite Hnone in Hparse.
  destruct (Zod.string (field (JObj fields) "title")); try discriminate.
  destruct (Zod.string (field (JObj fields) "content")); try discriminate.
  simpl in Hparse.
  destruct (Zod.optional (Zod.array Zod.string) (lookup "tags" fields));
    try discriminate.
  inversion Hparse; reflexivity.
Qed.

(** C5: a [createDiscussion] call without an urgency sends one request,
    whose body has "medium" both as [urgency] and as [context.urgency];
    the same holds for a [create_discussion] tool call whose arguments
    carry no [urgency]. *)
Theorem C5_default_urgency env c w :
  (forall d,
     opt_chain (context d) urgency = None ->
     exists req,
       sent (createDiscussion c d) env w = [req] /\
       method req = POST /\
       url req = "/projects/" ++ projectId (cl_config c) ++ "/discuss" /\
       field (req_data req) "urgency" = JStr "medium" /\
       field (field (req_data req) "context") "urgency" = JStr "medium") /\
  (forall args a,
     create_discussion_schema args = Some a ->
     field args "urgency" = JUndefined ->
     exists req,
       sent (callTool {| client := Some c |} "create_discussion" args)
            env w = [req] /\
       field (req_data req) "urgency" = JStr "medium" /\
       field (field (req_data req) "context") "urgency" = JStr "medium").
Proof.
  split.
  - intros d Hnone.
    destruct (createDiscussion_body_default c d Hnone) as [Htop Hctx].
    eexists; split;
      [exact (sent_appended _ _ _ _ (createDiscussion_trace env c d w))|].
    repeat split; assumption.
  - intros args a Hparse Hnone.
    pose proof (create_discussion_schema_urgency _ _ Hparse Hnone) as Hu.
    destruct (createDiscussion_body_default c (create_discussion_request a))
      as [Htop Hctx]; [exact Hu|].
    eexists; split.
    + apply sent_appended.
      rewrite (callTool_create_discussion_trace env c args a w Hparse).
      apply createDiscussion_trace.
    + split; assumption.
Qed.

Lemma C5_default_urgency_witness :
  exists req,
    sent (createDiscussion Sample.the_client Sample.question)
         (Sample.always (Fulfilled Sample.started)) initial_world = [req] /\
    field (req_data req) "urgency" = JStr "medium" /\
    field (field (req_data req) "context") "urgency" = JStr "medium".
Proof.
  destruct (proj1 (C5_default_urgency
                     (Sample.always (Fulfilled Sample.started))
                     Sample.the_client initial_world)
              Sample.question eq_refl)
    as [req [Hsent [_ [_ [Htop Hctx]]]]].
  exists req; repeat split; assumption.
Defined.

Lemma updateProgress_trace env c taskId p w :
  exists rest,
    trace (snd (updateProgress c taskId p env w)) =
    (trace w ++
     mergeConfig (cl_axios c) POST ("/tasks/" ++ taskId ++ "/progress")
       (updateProgress_body p) :: rest)%list.
Proof.
  unfold updateProgress; autounfold with js; cbv beta.
  match goal with
  | |- context [makeRequest c ?m ?u ?b env w] =>
      destruct (transport env (trace w) (mergeConfig (cl_axios c) m u b))
        as [resp|err] eqn:Ht;
      [ rewrite (makeRequest_fulfilled _ _ _ _ _ _ _ Ht)
      | rewrite (makeRequest_rejected _ _ _ _ _ _ _ Ht) ]
  end; cbv beta iota.
  - match goal with
    | |- context [updateConnectionStatus c ?s ?t env ?w'] =>
        destruct (updateConnectionStatus_run env w' c s t) as [n Hn]
    end.
    rewrite Hn; simpl.
    eexists; rewrite <- app_assoc; reflexivity.
  - exists []; reflexivity.
Qed.

(** C8: the first request of [updateProgress] is a POST to
    [/tasks/{id}/progress] whose body has the eight upstream keys, filled
    by the fixed renaming: [progress] as [completion_percentage],
    [files_modified] as both [files_created] and [files_modified],
    [challenges] as [blockers], [time_spent] as [time_spent_minutes]. *)
Theorem C8_progress_body_mapping env c taskId p w :
  exists req rest,
    sent (updateProgress c taskId p) env w = req :: rest /\
    method req = POST /\
    url req = "/tasks/" ++ taskId ++ "/progress" /\
    keys (req_data req) =
      [ "completion_percentage"; "files_created"; "files_modified";
        "notes"; "blockers"; "time_spent_minutes"; "current_step";
        "completed_steps" ] /\
    field (req_data req) "completion_percentage" = JNum (progress p) /\
    field (req_data req) "files_created" =
      of_option of_strings (files_modified p) /\
    field (req_data req) "files_modified" =
      of_option of_strings (files_modified p) /\
    field (req_data req) "blockers" =
      of_option of_strings (challenges p) /\
    field (req_data req) "time_spent_minutes" =
      of_option JNum (time_spent p) /\
    field (req_data req) "notes" = of_option JStr (notes p) /\
    field (req_data req) "current_step" =
      of_option JStr (current_step p) /\
    field (req_data req) "completed_steps" =
      of_option of_strings (completed_steps p).
Proof.
  destruct (updateProgress_trace env c taskId p w) as [rest Ht].
  do 2 eexists.
  split; [exact (sent_appended _ _ _ _ Ht)|].
  repeat split; reflexivity.
Qed.

(* ================================================================== *)
(** ** status_update is not transmitted *)
(* ================================================================== *)

Lemma updateProgress_ignores_status_update c taskId p s :
  updateProgress c taskId (with_status_update s p) =
  updateProgress c taskId p.
Proof. reflexivity. Qed.

Ltac agree_on H k :=
  let E := fresh "E" in
  assert (E := H k ltac:(discriminate)); simpl in E; rewrite E; clear E.

(** C10: two [update_progress] calls whose arguments differ only in the
    string given as [status_update] run identically: the same requests
    with the same bodies are sent and the same result comes back.  At
    the client, [updateProgress] is the same computation whatever the
    [status_update] of its argument. *)
Theorem C10_status_update_not_transmitted env this a b w :
  agree_except "status_update" a b ->
  (exists s, field a "status_update" = JStr s) ->
  (exists s, field b "status_update" = JStr s) ->
  callTool this "update_progress" a env w =
    callTool this "update_progress" b env w /\
  sent (callTool this "update_progress" a) env w =
    sent (callTool this "update_progress" b) env w /\
  map req_data (sent (callTool this "update_progress" a) env w) =
    map req_data (sent (callTool this "update_progress" b) env w) /\
  forall c taskId p s,
    updateProgress c taskId (with_status_update s p) =
    updateProgress c taskId p.
Proof.
  intros [[fa [fb [-> ->]]] Hag] [sa Hsa] [sb Hsb].
  assert (Hrun : callTool this "update_progress" (JObj fa) env w =
                 callTool this "update_progress" (JObj fb) env w).
  { unfold callTool; rewrite find_update_progress.
    change (inputSchema update_progress) with update_progress_schema.
    unfold update_progress_schema, Zod.object.
    cbv beta iota delta [field].
    simpl in Hsa, Hsb; rewrite Hsa, Hsb.
    agree_on Hag "task_id".
    agree_on Hag "progress".
    agree_on Hag "completed_steps".
    agree_on Hag "current_step".
    agree_on Hag "challenges".
    agree_on Hag "files_modified".
    agree_on Hag "time_spent".
    agree_on Hag "notes".
    destruct (Zod.string (lookup "task_id" fb)); [|reflexivity].
    destruct (Zod.parse_number _ (lookup "progress" fb)); [|reflexivity].
    simpl Zod.string; cbv iota.
    destruct (Zod.optional (Zod.array Zod.string)
                (lookup "completed_steps" fb)); [|reflexivity].
    destruct (Zod.optional Zod.string (lookup "current_step" fb));
      [|reflexivity].
    destruct (Zod.optional (Zod.array Zod.string)
                (lookup "challenges" fb)); [|reflexivity].
    destruct (Zod.optional (Zod.array Zod.string)
                (lookup "files_modified" fb)); [|reflexivity].
    destruct (Zod.optional (Zod.parse_number Zod.number)
                (lookup "time_spent" fb)); [|reflexivity].
    destruct (Zod.optional Zod.string (lookup "notes" fb));
      [|reflexivity].
    unfold update_progress, callback.
    destruct (client this); reflexivity. }
  unfold sent; rewrite Hrun.
  repeat split; reflexivity.
Qed.

Lemma C10_status_update_not_transmitted_witness :
  map req_data
    (sent (callTool Sample.server "update_progress"
             (Sample.progress_args (50 # 1) "halfway"))
          (Sample.always (Fulfilled Sample.started)) initial_world) =
  map req_data
    (sent (callTool Sample.server "update_progress"
             (Sample.progress_args (50 # 1) "stuck on the parser"))
          (Sample.always (Fulfilled Sample.started)) initial_world).
Proof.
  refine (proj1 (proj2 (proj2
    (C10_status_update_not_transmitted
       (Sample.always (Fulfilled Sample.started)) Sample.server
       (Sample.progress_args (50 # 1) "halfway")
       (Sample.progress_args (50 # 1) "stuck on the parser")
       initial_world _ _ _)))).
  - split.
    + do 2 eexists; split; reflexivity.
    + intros k' Hk'; simpl.
      destruct (String.eqb k' "task_id"); [reflexivity|].
      destruct (String.eqb k' "progress"); [reflexivity|].
      destruct (String.eqb k' "status_update") eqn:E.
      * apply String.eqb_eq in E; contradiction.
      * reflexivity.
  - eexists; reflexivity.
  - eexists; reflexivity.
Defined.

(* ================================================================== *)
(** ** The model at work *)
(* ================================================================== *)

(** A valid [update_progress] call reaches the backend: the progress
    request, then the heartbeat. *)
Example update_progress_valid_call :
  map url
    (sent (callTool Sample.server "update_progress"
             (Sample.progress_args (50 # 1) "halfway"))
          (Sample.always (Fulfilled Sample.started)) initial_world) =
  [ "/tasks/t1/progress"; "/internal/ai-connections" ].
Proof. reflexivity. Qed.

(** Both bounds of the percentage are accepted. *)
Example update_progress_bounds_accepted :
  length (sent (callTool Sample.server "update_progress"
                  (Sample.progress_args (0 # 1) "starting"))
               (Sample.always (Fulfilled Sample.started)) initial_world) = 2
  /\
  length (sent (callTool Sample.server "update_progress"
                  (Sample.progress_args (100 # 1) "done"))
               (Sample.always (Fulfilled Sample.started)) initial_world) = 2.
Proof. split; reflexivity. Qed.

(** Before [initialize] has built the client a valid call fails in the
    callback, not in the dispatcher. *)
Example update_progress_not_connected :
  outcome_of (callTool {| client := None |} "update_progress"
                (Sample.progress_args (50 # 1) "halfway"))
    (Sample.always (Fulfilled Sample.started)) initial_world =
  Returned (ToolIsError not_connected).
Proof. reflexivity. Qed.

(** A network failure reaches the caller with the transport's message. *)
Example network_error_message :
  outcome_of (healthCheck Sample.the_client)
    (Sample.always (Rejected Sample.network_down)) initial_world =
  Thrown (ExnAPIError
            {| error := JStr "connect ECONNREFUSED 127.0.0.1:443";
               code := JUndefined;
               details := JUndefined;
               timestamp := "2024-01-01T00:00:00.000Z" |}).
Proof. reflexivity. Qed.

(** The body sent for a half-done task. *)
Example half_done_body :
  map req_data
    (firstn 1 (sent (updateProgress Sample.the_client "t1" Sample.half_done)
                 (Sample.always (Fulfilled Sample.started)) initial_world)) =
  [ JObj [ ("completion_percentage", JNum (NFin (50 # 1)));
           ("files_created", JArr [ JStr "src/a.ts" ]);
           ("files_modified", JArr [ JStr "src/a.ts" ]);
           ("notes", JUndefined);
           ("blockers", JArr [ JStr "flaky test" ]);
           ("time_spent_minutes", JNum (NFin (30 # 1)));
           ("current_step", JStr "implementation");
           ("completed_steps", JArr [ JStr "design" ]) ] ].
Proof. reflexivity. Qed.

(** A client built without an assistant id takes the first eight
    characters of the generated identifier. *)
Example generated_assistant_id :
  cl_aiAssistantId Sample.the_client = "ai_3f2b8c1e".
Proof. reflexivity. Qed.

(* ================================================================== *)
(** ** Every call, request by request *)
(* ================================================================== *)

Lemma invoke_rejected env c k req err w :
  primary_request c k = Some req ->
  transport env (trace w) req = Rejected err ->
  invoke c k env w =
  (Thrown (ExnAPIError (formatErrorAt (clock env (S (ticks w))) err)),
   {| trace := (trace w ++ [req])%list; ticks := S (S (S (ticks w))) |}).
Proof.
  intros Hreq Hrej.
  destruct k; simpl in Hreq; inversion Hreq; subst req; clear Hreq;
    unfold invoke, getProjectContext, getNextTask, startTask,
      updateProgress, completeTask, createDiscussion, healthCheck;
    autounfold with js; simpl;
    rewrite (makeRequest_rejected _ _ _ _ _ _ _ Hrej); reflexivity.
Qed.

Lemma invoke_fulfilled env c k req resp w :
  primary_request c k = Some req ->
  transport env (trace w) req = Fulfilled resp ->
  log_converts k (resp_data resp) = true ->
  exists n,
    invoke c k env w =
    (Returned (resp_data resp),
     {| trace :=
          ((trace w ++ [req]) ++
           follow_up c k (clock env (S (S (S (ticks w))))))%list;
        ticks := n |}).
Proof.
  intros Hreq Hok Hconv.
  destruct k; simpl in Hreq; inversion Hreq; subst req; clear Hreq;
    unfold invoke, getProjectContext, getNextTask, startTask,
      updateProgress, completeTask, createDiscussion, healthCheck;
    autounfold with js; simpl;
    rewrite (makeRequest_fulfilled _ _ _ _ _ _ _ Hok); cbv beta iota;
    try match goal with
        | |- context [updateConnectionStatus c ?s ?t env ?w'] =>
            destruct (updateConnectionStatus_run env w' c s t) as [n Hn];
            exists n; rewrite Hn; reflexivity
        end;
    unfold to_string; simpl; simpl in Hconv;
    revert Hconv;
    try match goal with
        | |- context [truthy ?v] => destruct (truthy v)
        end;
    intros Hconv; try rewrite Hconv;
    eexists; simpl; rewrite app_nil_r; reflexivity.
Qed.

(** A fulfilled request whose logged part cannot be converted: the
    TypeError is caught and thrown again. *)
Lemma invoke_unconvertible env c k req resp w :
  primary_request c k = Some req ->
  transport env (trace w) req = Fulfilled resp ->
  log_converts k (resp_data resp) = false ->
  invoke c k env w =
  (Thrown ExnTypeError,
   {| trace := (trace w ++ [req])%list; ticks := S (S (S (ticks w))) |}).
Proof.
  intros Hreq Hok Hconv.
  destruct k; simpl in Hconv; try discriminate Hconv;
    simpl in Hreq; inversion Hreq; subst req; clear Hreq;
    unfold invoke, getNextTask, createDiscussion;
    autounfold with js; simpl;
    rewrite (makeRequest_fulfilled _ _ _ _ _ _ _ Hok); cbv beta iota;
    unfold to_string; simpl.
  - revert Hconv.
    destruct (truthy (field (resp_data resp) "task"));
      [|discriminate].
    intros Hconv; rewrite Hconv; reflexivity.
  - rewrite Hconv; reflexivity.
Qed.

(** What a fulfilled request leaves in the trace, converted or not. *)
Lemma invoke_fulfilled_trace env c k req resp w :
  primary_request c k = Some req ->
  transport env (trace w) req = Fulfilled resp ->
  exists r n,
    invoke c k env w =
    (r,
     {| trace :=
          ((trace w ++ [req]) ++
           follow_up c k (clock env (S (S (S (ticks w))))))%list;
        ticks := n |}).
Proof.
  intros Hreq Hok.
  destruct (log_converts k (resp_data resp)) eqn:Hconv.
  - destruct (invoke_fulfilled env c k req resp w Hreq Hok Hconv)
      as [n Hn].
    do 2 eexists; exact Hn.
  - rewrite (invoke_unconvertible env c k req resp w Hreq Hok Hconv).
    assert (Hnone : forall ts, follow_up c k ts = []).
    { destruct k; simpl in Hconv; try discriminate Hconv; reflexivity. }
    rewrite Hnone, app_nil_r.
    do 2 eexists; reflexivity.
Qed.

Lemma run_call_invoke env c k w :
  run_call c k env w = discard (invoke c k) env w.
Proof.
  destruct k; try reflexivity; simpl; unfold discard, bind, ret.
  - destruct (connect c env w) as [[[]|e] w']; reflexivity.
  - destruct (disconnect c env w) as [[[]|e] w']; reflexivity.
Qed.

Lemma discard_trace {A : Type} (m : M A) env w :
  trace (snd (discard m env w)) = trace (snd (m env w)).
Proof.
  unfold discard, bind, ret.
  destruct (m env w) as [[a|e] w']; reflexivity.
Qed.

Lemma sent_discard {A : Type} (m : M A) env w :
  sent (discard m) env w = sent m env w.
Proof. unfold sent; rewrite discard_trace; reflexivity. Qed.

Lemma sent_run_call env c k w :
  sent (run_call c k) env w = sent (invoke c k) env w.
Proof.
  unfold sent; rewrite run_call_invoke, discard_trace; reflexivity.
Qed.

Lemma connect_run env c w :
  exists n,
    connect c env w =
    (Returned tt,
     {| trace :=
          (trace w ++
           [heartbeat_request c Connected None (clock env (ticks w))])%list;
        ticks := n |}).
Proof.
  destruct (updateConnectionStatus_run env w c Connected None) as [n Hn].
  exists n.
  unfold connect; autounfold with js; simpl.
  rewrite Hn; reflexivity.
Qed.

(** [find] reads the list and nothing else: the world is as before. *)
Lemma find_connection_pure env w id l :
  (exists v, find_connection id l env w = (Returned v, w)) \/
  find_connection id l env w = (Thrown ExnTypeError, w).
Proof.
  induction l as [|conn rest IH]; simpl.
  - left; eexists; reflexivity.
  - unfold bind, member.
    destruct (nullish conn); [right; reflexivity|].
    unfold ret.
    destruct (strict_eq_string (field conn "ai_assistant_id") id).
    + left; eexists; reflexivity.
    + exact IH.
Qed.

(** [getConnectionStatus] sends its one request and returns. *)
Lemma getConnectionStatus_run env c w :
  exists v n,
    getConnectionStatus c env w =
    (Returned v,
     {| trace := (trace w ++ [connections_request c])%list; ticks := n |}).
Proof.
  unfold getConnectionStatus, axios_get, connections_request.
  unfold try_catch at 1, bind at 1.
  destruct (transport env (trace w)
              (mergeConfig (cl_axios c) GET
                 ("/projects/" ++ projectId (cl_config c) ++
                  "/ai-connections") JUndefined)) as [resp|err] eqn:Ht.
  - rewrite (axios_request_fulfilled _ _ _ _ _ _ _ Ht).
    unfold bind at 1, member.
    destruct (nullish (resp_data resp)).
    + do 2 eexists; reflexivity.
    + unfold ret at 1.
      destruct (Js.or (field (resp_data resp) "connections") (JArr []));
        try (do 2 eexists; reflexivity).
      unfold bind.
      match goal with
      | |- context [find_connection ?id ?l env ?w'] =>
          destruct (find_connection_pure env w' id l) as [[v Hv]|Hv];
          rewrite Hv
      end; do 2 eexists; reflexivity.
  - rewrite (axios_request_rejected _ _ _ _ _ _ _ Ht).
    do 2 eexists; reflexivity.
Qed.

Lemma primary_not_heartbeat c k req :
  primary_request c k = Some req -> is_heartbeat req = false.
Proof.
  destruct k; simpl; intros H; inversion H; reflexivity.
Qed.

Lemma follow_up_heartbeats c k ts :
  length (follow_up c k ts) <= 1 /\
  filter is_heartbeat (follow_up c k ts) = follow_up c k ts.
Proof. destruct k; simpl; split; auto. Qed.

(** X1: when the primary request of an operation is fulfilled, the
    requests sent are that request followed by the heartbeat of the
    operation: "working" on the task after [startTask] and
    [updateProgress], "connected" without a task after [completeTask],
    none after [getProjectContext], [getNextTask], [createDiscussion]
    and [healthCheck].  The operation returns the body of the response
    unchanged, unless it is [getNextTask] or [createDiscussion] and the
    title of the task, or the id of the discussion, cannot be converted
    to a string for the log message: then it throws a TypeError. *)
Theorem X1_fulfilled_call env c k req resp w :
  primary_request c k = Some req ->
  transport env (trace w) req = Fulfilled resp ->
  (log_converts k (resp_data resp) = true ->
   outcome_of (invoke c k) env w = Returned (resp_data resp)) /\
  (log_converts k (resp_data resp) = false ->
   outcome_of (invoke c k) env w = Thrown ExnTypeError /\
   (k = CallGetNextTask \/ exists d, k = CallCreateDiscussion d)) /\
  exists ts, sent (invoke c k) env w = req :: follow_up c k ts.
Proof.
  intros Hreq Hok.
  split; [|split].
  - intros Hconv.
    destruct (invoke_fulfilled env c k req resp w Hreq Hok Hconv) as [n Hn].
    unfold outcome_of; rewrite Hn; reflexivity.
  - intros Hconv.
    unfold outcome_of.
    rewrite (invoke_unconvertible env c k req resp w Hreq Hok Hconv).
    split; [reflexivity|].
    destruct k; simpl in Hconv; try discriminate Hconv; eauto.
  - destruct (invoke_fulfilled_trace env c k req resp w Hreq Hok)
      as [r [n Hn]].
    eexists; apply sent_appended.
    rewrite Hn; simpl.
    rewrite <- app_assoc; reflexivity.
Qed.

Lemma X1_fulfilled_call_witness :
  outcome_of (invoke Sample.the_client
                (CallCompleteTask "t1" Scenario.finished))
    (Sample.heartbeat_down Sample.started Sample.network_down)
    initial_world =
    Returned (resp_data Sample.started) /\
  outcome_of (invoke Sample.the_client CallGetNextTask)
    (Sample.always (Fulfilled Scenario.odd_title)) initial_world =
    Thrown ExnTypeError.
Proof.
  split.
  - exact (proj1 (X1_fulfilled_call
                    (Sample.heartbeat_down Sample.started
                       Sample.network_down)
                    Sample.the_client
                    (CallCompleteTask "t1" Scenario.finished) _
                    Sample.started initial_world eq_refl eq_refl)
             eq_refl).
  - exact (proj1 (proj1 (proj2 (X1_fulfilled_call
                    (Sample.always (Fulfilled Scenario.odd_title))
                    Sample.the_client CallGetNextTask _
                    Scenario.odd_title initial_world eq_refl eq_refl))
             eq_refl)).
Defined.

(** X2: when the primary request of an operation is rejected, that
    request is the only one sent: no heartbeat follows a failed
    [startTask], [updateProgress] or [completeTask]. *)
Theorem X2_failed_call_sends_no_heartbeat env c k req err w :
  primary_request c k = Some req ->
  transport env (trace w) req = Rejected err ->
  sent (invoke c k) env w = [req] /\
  filter is_heartbeat (sent (invoke c k) env w) = [].
Proof.
  intros Hreq Hrej.
  assert (Hs : sent (invoke c k) env w = [req])
    by exact (sent_one _ _ _ _ _ _
                (invoke_rejected env c k req err w Hreq Hrej)).
  split; [exact Hs|].
  rewrite Hs; simpl.
  rewrite (primary_not_heartbeat c k req Hreq); reflexivity.
Qed.

Lemma X2_failed_call_sends_no_heartbeat_witness :
  sent (invoke Sample.the_client (CallStartTask "t1" Sample.tdd))
    (Sample.always (Rejected Scenario.server_error)) initial_world =
  [ mergeConfig (cl_axios Sample.the_client) POST "/tasks/t1/start"
      (startTask_body Sample.the_client Sample.tdd) ].
Proof.
  exact (proj1 (X2_failed_call_sends_no_heartbeat
                  (Sample.always (Rejected Scenario.server_error))
                  Sample.the_client (CallStartTask "t1" Sample.tdd) _
                  Scenario.server_error initial_world eq_refl eq_refl)).
Defined.

(** What a call appends to the trace, case by case. *)
Lemma invoke_appends env c k w :
  exists l,
    trace (snd (invoke c k env w)) = (trace w ++ l)%list /\
    length l <= 2 /\
    length (filter is_heartbeat l) <= 1.
Proof.
  destruct (primary_request c k) as [req|] eqn:Hreq.
  - pose proof (primary_not_heartbeat c k req Hreq) as Hnot.
    destruct (transport env (trace w) req) as [resp|err] eqn:Ht.
    + destruct (invoke_fulfilled_trace env c k req resp w Hreq Ht)
        as [r [n Hn]].
      destruct (follow_up_heartbeats c k (clock env (S (S (S (ticks w))))))
        as [Hlen Hfil].
      exists (req :: follow_up c k (clock env (S (S (S (ticks w)))))).
      rewrite Hn; simpl.
      rewrite Hnot, Hfil.
      split; [rewrite <- app_assoc; reflexivity | lia].
    + exists [req].
      rewrite (invoke_rejected env c k req err w Hreq Ht); simpl.
      rewrite Hnot; simpl; auto.
  - destruct k; simpl in Hreq; try discriminate Hreq; simpl.
    + destruct (connect_run env c w) as [n Hn].
      eexists; unfold bind; rewrite Hn; simpl; auto.
    + destruct (disconnect_run env c w) as [n Hn].
      eexists; unfold bind; rewrite Hn; simpl; auto.
    + destruct (getConnectionStatus_run env c w) as [v [n Hn]].
      eexists; rewrite Hn; simpl.
      split; [reflexivity|].
      destruct (is_heartbeat (connections_request c)); simpl; auto.
Qed.

(** X3: a call on the client only adds to the requests already sent, at
    most two of them, and at most one of these is a heartbeat. *)
Theorem X3_at_most_two_requests env c k w :
  exists l,
    trace (snd (run_call c k env w)) = (trace w ++ l)%list /\
    sent (run_call c k) env w = l /\
    length l <= 2 /\
    length (filter is_heartbeat l) <= 1.
Proof.
  destruct (invoke_appends env c k w) as [l [Ht [Hlen Hhb]]].
  exists l.
  assert (Hrun : trace (snd (run_call c k env w)) = (trace w ++ l)%list)
    by (rewrite run_call_invoke, discard_trace; exact Ht).
  repeat split; auto.
  apply sent_appended; exact Hrun.
Qed.

(** A call that throws has a primary request; either that was
    rejected, or it was fulfilled and the logged part of the body could
    not be converted. *)
Lemma invoke_thrown env c k w e :
  fst (invoke c k env w) = Thrown e ->
  exists req,
    primary_request c k = Some req /\
    ((exists err,
        transport env (trace w) req = Rejected err /\
        e = ExnAPIError (formatErrorAt (clock env (S (ticks w))) err)) \/
     (exists resp,
        transport env (trace w) req = Fulfilled resp /\
        log_converts k (resp_data resp) = false /\
        e = ExnTypeError)).
Proof.
  intros Hthrown.
  destruct (primary_request c k) as [req|] eqn:Hreq.
  - exists req; split; [reflexivity|].
    destruct (transport env (trace w) req) as [resp|err] eqn:Ht.
    + right; exists resp.
      destruct (log_converts k (resp_data resp)) eqn:Hconv.
      * destruct (invoke_fulfilled env c k req resp w Hreq Ht Hconv)
          as [n Hn].
        rewrite Hn in Hthrown; discriminate Hthrown.
      * rewrite (invoke_unconvertible env c k req resp w Hreq Ht Hconv)
          in Hthrown.
        simpl in Hthrown; inversion Hthrown; auto.
    + left; exists err.
      rewrite (invoke_rejected env c k req err w Hreq Ht) in Hthrown.
      simpl in Hthrown; inversion Hthrown; auto.
  - exfalso.
    destruct k; simpl in Hreq; try discriminate Hreq; simpl in Hthrown.
    + destruct (connect_run env c w) as [n Hn].
      unfold bind in Hthrown; rewrite Hn in Hthrown; discriminate Hthrown.
    + destruct (disconnect_run env c w) as [n Hn].
      unfold bind in Hthrown; rewrite Hn in Hthrown; discriminate Hthrown.
    + destruct (getConnectionStatus_run env c w) as [v [n Hn]].
      rewrite Hn in Hthrown; discriminate Hthrown.
Qed.

Lemma run_call_thrown env c k w e :
  fst (run_call c k env w) = Thrown e ->
  fst (invoke c k env w) = Thrown e.
Proof.
  rewrite run_call_invoke.
  unfold discard, bind, ret.
  destruct (invoke c k env w) as [[v|e'] w']; simpl;
    intros H; inversion H; reflexivity.
Qed.

Lemma unconvertible_call k body :
  log_converts k body = false ->
  k = CallGetNextTask \/ exists d, k = CallCreateDiscussion d.
Proof. destruct k; simpl; try discriminate; eauto. Qed.

(** X4: a call on the client throws in two cases only.  Its primary
    request was rejected: then it throws the APIError normalised from
    the rejection.  Or it is [getNextTask] or [createDiscussion], the
    request was fulfilled, and the title of the task, or the id of the
    discussion, cannot be converted to a string for the log message:
    then it throws a TypeError.  [connect], [disconnect] and
    [getConnectionStatus] do not throw. *)
Theorem X4_what_a_call_throws env c k w e :
  outcome_of (run_call c k) env w = Thrown e ->
  exists req,
    primary_request c k = Some req /\
    ((exists a err,
        e = ExnAPIError a /\
        transport env (trace w) req = Rejected err /\
        error a = error_by_truthiness err) \/
     (exists resp,
        e = ExnTypeError /\
        transport env (trace w) req = Fulfilled resp /\
        log_converts k (resp_data resp) = false /\
        (k = CallGetNextTask \/ exists d, k = CallCreateDiscussion d))).
Proof.
  unfold outcome_of; intros Hthrown.
  destruct (invoke_thrown env c k w e (run_call_thrown env c k w e Hthrown))
    as [req [Hreq [[err [Ht He]] | [resp [Ht [Hconv He]]]]]];
    exists req; split; try exact Hreq.
  - left; eexists; exists err.
    repeat split; eauto.
    apply formatErrorAt_error.
  - right; exists resp.
    repeat split; auto.
    exact (unconvertible_call k _ Hconv).
Qed.

Lemma X4_what_a_call_throws_witness :
  exists req a,
    primary_request Sample.the_client CallHealthCheck = Some req /\
    outcome_of (run_call Sample.the_client CallHealthCheck)
      (Sample.always (Rejected Scenario.server_error)) initial_world =
    Thrown (ExnAPIError a) /\
    error a = JStr "Request failed with status code 503".
Proof.
  destruct (X4_what_a_call_throws
              (Sample.always (Rejected Scenario.server_error))
              Sample.the_client CallHealthCheck initial_world _ eq_refl)
    as [req [Hreq [[a [err [He [Ht Herr]]]] | [resp [_ [Ht _]]]]]].
  - exists req, a; split; [exact Hreq|]; split.
    + rewrite <- He; reflexivity.
    + vm_compute in Ht; inversion Ht; subst err.
      rewrite Herr; reflexivity.
  - vm_compute in Ht; discriminate Ht.
Defined.

(* ================================================================== *)
(** ** connect and getConnectionStatus *)
(* ================================================================== *)

(** X5: [connect] returns normally whatever the backend answers, after
    exactly one heartbeat, with status "connected" and no current
    task. *)
Theorem X5_connect_never_throws env c w :
  outcome_of (connect c) env w = Returned tt /\
  exists hb,
    sent (connect c) env w = [hb] /\
    is_heartbeat hb = true /\
    field (req_data hb) "status" = JStr "connected" /\
    field (req_data hb) "current_task_id" = JUndefined /\
    field (req_data hb) "ai_assistant_id" = JStr (cl_aiAssistantId c).
Proof.
  destruct (connect_run env c w) as [n Hn].
  split.
  - unfold outcome_of; rewrite Hn; reflexivity.
  - eexists; split; [exact (sent_one _ _ _ _ _ _ Hn)|].
    repeat split; reflexivity.
Qed.

(** X6: [getConnectionStatus] returns a value whatever the backend
    answers, rejection and malformed bodies included, after exactly one
    request, a GET of the project's connection list. *)
Theorem X6_getConnectionStatus_never_throws env c w :
  exists v,
    outcome_of (getConnectionStatus c) env w = Returned v /\
    sent (getConnectionStatus c) env w = [connections_request c].
Proof.
  destruct (getConnectionStatus_run env c w) as [v [n Hn]].
  exists v; split.
  - unfold outcome_of; rewrite Hn; reflexivity.
  - exact (sent_one _ _ _ _ _ _ Hn).
Qed.

Lemma find_connection_skip env w id pre rest :
  Forall (other_connection id) pre ->
  find_connection id (pre ++ rest) env w = find_connection id rest env w.
Proof.
  induction 1 as [|conn pre [Hnn Hne] _ IH]; simpl; [reflexivity|].
  unfold bind, member; rewrite Hnn; unfold ret; rewrite Hne.
  exact IH.
Qed.

Lemma find_connection_none env w id l :
  Forall (other_connection id) l ->
  find_connection id l env w = (Returned JUndefined, w).
Proof.
  intros H.
  rewrite <- (app_nil_r l).
  rewrite (find_connection_skip env w id l [] H); reflexivity.
Qed.

Lemma field_defined_not_nullish v k :
  field v k <> JUndefined -> nullish v = false.
Proof. destruct v; simpl; congruence. Qed.

(** [getConnectionStatus] once the list of connections is known. *)
Lemma getConnectionStatus_listed env c w resp l :
  transport env (trace w) (connections_request c) = Fulfilled resp ->
  nullish (resp_data resp) = false ->
  Js.or (field (resp_data resp) "connections") (JArr []) = JArr l ->
  fst (getConnectionStatus c env w) =
  match fst (find_connection (cl_aiAssistantId c) l env
               {| trace := (trace w ++ [connections_request c])%list;
                  ticks := ticks w |}) with
  | Returned found =>
      Returned (Js.or found (connection_record "disconnected"))
  | Thrown _ => Returned (connection_record "unknown")
  end.
Proof.
  intros Ht Hnn Hl.
  unfold connections_request in *.
  unfold getConnectionStatus, axios_get.
  unfold try_catch at 1, bind at 1.
  rewrite (axios_request_fulfilled _ _ _ _ _ _ _ Ht).
  unfold bind at 1, member; rewrite Hnn.
  unfold ret at 1; rewrite Hl.
  unfold bind.
  match goal with
  | |- context [find_connection ?id ?l' env ?w'] =>
      destruct (find_connection_pure env w' id l') as [[v Hv]|Hv];
      rewrite Hv
  end; reflexivity.
Qed.

(** X7: [getConnectionStatus] answers with status "unknown" when the
    request is rejected, when the response has no body, and when the
    list holds a [null] before any entry of this assistant. *)
Theorem X7_connection_status_unknown env c w :
  (forall err,
     transport env (trace w) (connections_request c) = Rejected err ->
     outcome_of (getConnectionStatus c) env w =
       Returned (connection_record "unknown")) /\
  (forall resp,
     transport env (trace w) (connections_request c) = Fulfilled resp ->
     nullish (resp_data resp) = true ->
     outcome_of (getConnectionStatus c) env w =
       Returned (connection_record "unknown")) /\
  (forall resp pre post,
     transport env (trace w) (connections_request c) = Fulfilled resp ->
     field (resp_data resp) "connections" = JArr (pre ++ JNull :: post) ->
     Forall (other_connection (cl_aiAssistantId c)) pre ->
     outcome_of (getConnectionStatus c) env w =
       Returned (connection_record "unknown")).
Proof.
  unfold outcome_of; repeat split.
  - intros err Ht.
    unfold getConnectionStatus, axios_get, try_catch, bind.
    unfold connections_request in Ht.
    rewrite (axios_request_rejected _ _ _ _ _ _ _ Ht); reflexivity.
  - intros resp Ht Hnull.
    unfold getConnectionStatus, axios_get, try_catch, bind.
    unfold connections_request in Ht.
    rewrite (axios_request_fulfilled _ _ _ _ _ _ _ Ht).
    unfold member; rewrite Hnull; reflexivity.
  - intros resp pre post Ht Hl Hpre.
    rewrite (getConnectionStatus_listed env c w resp (pre ++ JNull :: post)
               Ht).
    + rewrite (find_connection_skip _ _ _ pre (JNull :: post) Hpre).
      reflexivity.
    + apply field_defined_not_nullish with (k := "connections").
      rewrite Hl; discriminate.
    + rewrite Hl; reflexivity.
Qed.

Lemma X7_connection_status_unknown_witness :
  outcome_of (getConnectionStatus Sample.the_client)
    (Sample.always (Fulfilled (Scenario.connections
                                 [ Scenario.theirs; JNull; Scenario.mine ])))
    initial_world =
  Returned (connection_record "unknown").
Proof.
  refine (proj2 (proj2 (X7_connection_status_unknown
    (Sample.always (Fulfilled (Scenario.connections
                                 [ Scenario.theirs; JNull; Scenario.mine ])))
    Sample.the_client initial_world))
    _ [ Scenario.theirs ] [ Scenario.mine ] eq_refl eq_refl _).
  repeat constructor.
Defined.

(** X8: when the list holds an entry whose [ai_assistant_id] is the id
    of this client, and every entry before it is a non-null one of
    another assistant, [getConnectionStatus] returns that entry, the
    first of its kind. *)
Theorem X8_own_connection_found env c w resp pre conn post :
  transport env (trace w) (connections_request c) = Fulfilled resp ->
  field (resp_data resp) "connections" = JArr (pre ++ conn :: post) ->
  Forall (other_connection (cl_aiAssistantId c)) pre ->
  field conn "ai_assistant_id" = JStr (cl_aiAssistantId c) ->
  outcome_of (getConnectionStatus c) env w = Returned conn.
Proof.
  intros Ht Hl Hpre Hown.
  unfold outcome_of.
  rewrite (getConnectionStatus_listed env c w resp (pre ++ conn :: post) Ht).
  - rewrite (find_connection_skip _ _ _ pre (conn :: post) Hpre).
    simpl; unfold bind, member.
    rewrite (field_defined_not_nullish conn "ai_assistant_id")
      by (rewrite Hown; discriminate).
    unfold ret; rewrite Hown; simpl.
    rewrite String.eqb_refl; simpl.
    destruct conn; simpl in Hown; try discriminate Hown; reflexivity.
  - apply field_defined_not_nullish with (k := "connections").
    rewrite Hl; discriminate.
  - rewrite Hl; reflexivity.
Qed.

Lemma X8_own_connection_found_witness :
  outcome_of (getConnectionStatus Sample.the_client)
    (Sample.always (Fulfilled (Scenario.connections
                                 [ Scenario.theirs; Scenario.mine ])))
    initial_world =
  Returned Scenario.mine.
Proof.
  refine (X8_own_connection_found
    (Sample.always (Fulfilled (Scenario.connections
                                 [ Scenario.theirs; Scenario.mine ])))
    Sample.the_client initial_world _ [ Scenario.theirs ] Scenario.mine []
    eq_refl eq_refl _ eq_refl).
  repeat constructor.
Defined.

(** X9: when the response has a body and no entry of its list is this
    assistant's (the list may be missing or empty), the answer of
    [getConnectionStatus] is the record with status "disconnected". *)
Theorem X9_connection_status_disconnected env c w resp l :
  transport env (trace w) (connections_request c) = Fulfilled resp ->
  nullish (resp_data resp) = false ->
  Js.or (field (resp_data resp) "connections") (JArr []) = JArr l ->
  Forall (other_connection (cl_aiAssistantId c)) l ->
  outcome_of (getConnectionStatus c) env w =
    Returned (connection_record "disconnected").
Proof.
  intros Ht Hnn Hl Hall.
  unfold outcome_of.
  rewrite (getConnectionStatus_listed env c w resp l Ht Hnn Hl).
  rewrite (find_connection_none _ _ _ l Hall); reflexivity.
Qed.

Lemma X9_connection_status_disconnected_witness :
  outcome_of (getConnectionStatus Sample.the_client)
    (Sample.always (Fulfilled Sample.no_task)) initial_world =
  Returned (connection_record "disconnected").
Proof.
  exact (X9_connection_status_disconnected
           (Sample.always (Fulfilled Sample.no_task))
           Sample.the_client initial_world Sample.no_task []
           eq_refl eq_refl eq_refl (Forall_nil _)).
Defined.

(* ================================================================== *)
(** ** Tools and the calls they stand for *)
(* ================================================================== *)

(** A callback wraps the value of the client call as text and adds no
    request of its own. *)
Lemma wrapped_call env w (op : M value) :
  try_catch
    (result <- (r <- op ;;
                text <- json_stringify r ;;
                ret (text_content text)) ;;
     ret (ToolResult result))
    (fun e => ret (ToolIsError e)) env w =
  (tool_outcome env (fst (op env w)), snd (op env w)).
Proof.
  autounfold with js.
  destruct (op env w) as [[v|e] w']; reflexivity.
Qed.

Lemma find_tool_names :
  find_tool setupTools "get_project_context" = Some get_project_context /\
  find_tool setupTools "get_next_task" = Some get_next_task /\
  find_tool setupTools "start_task" = Some start_task /\
  find_tool setupTools "complete_task" = Some complete_task /\
  find_tool setupTools "health_check" = Some health_check.
Proof. repeat split; reflexivity. Qed.

Lemma find_tool_none tools n :
  ~ In n (map name tools) -> find_tool tools n = None.
Proof.
  induction tools as [|t rest IH]; simpl; intros H; [reflexivity|].
  destruct (String.eqb_spec (name t) n) as [E|E].
  - exfalso; apply H; left; exact E.
  - apply IH; intros Hin; apply H; right; exact Hin.
Qed.

Lemma find_tool_some tools n :
  In n (map name tools) ->
  exists t, find_tool tools n = Some t /\ name t = n /\ In t tools.
Proof.
  induction tools as [|t rest IH]; simpl; intros H; [contradiction|].
  destruct (String.eqb_spec (name t) n) as [E|E].
  - exists t; auto.
  - destruct H as [H|H]; [contradiction|].
    destruct (IH H) as [t' [Hf [Hn Hin]]].
    exists t'; auto.
Qed.

Lemma find_tool_unknown n :
  ~ In n tool_names -> find_tool setupTools n = None.
Proof. apply find_tool_none. Qed.

Lemma tool_call_unknown n args :
  ~ In n tool_names -> tool_call n args = None.
Proof.
  intros H; unfold tool_call.
  repeat match goal with
  | |- context [String.eqb n ?s] =>
      destruct (String.eqb_spec n s) as [->|_];
      [exfalso; apply H; unfold tool_names; simpl; tauto|]
  end.
  reflexivity.
Qed.

Ltac known_tool t args :=
  unfold callTool, tool_call;
  match goal with
  | |- context [find_tool setupTools ?s] =>
      change (find_tool setupTools s) with (Some t)
  end;
  cbv beta iota;
  let r := fresh "r" in
  let E := fresh "E" in
  remember (inputSchema t args) as r eqn:E in *;
  destruct r as [?|]; [apply wrapped_call | reflexivity].

Lemma callTool_connected env c n args w :
  callTool {| client := Some c |} n args env w =
  match tool_call n args with
  | Some k => (tool_outcome env (fst (invoke c k env w)),
               snd (invoke c k env w))
  | None =>
      (Returned match find_tool setupTools n with
                | Some _ => InvalidArguments
                | None => ToolNotFound
                end, w)
  end.
Proof.
  destruct (in_dec string_dec n tool_names) as [Hin|Hout].
  - unfold tool_names, setupTools in Hin; simpl in Hin.
    destruct Hin as [<-|[<-|[<-|[<-|[<-|[<-|[<-|[]]]]]]]].
    + known_tool get_project_context args.
    + known_tool get_next_task args.
    + known_tool start_task args.
    + known_tool update_progress args.
    + known_tool complete_task args.
    + known_tool create_discussion args.
    + known_tool health_check args.
  - unfold callTool.
    rewrite (tool_call_unknown n args Hout), (find_tool_unknown n Hout).
    reflexivity.
Qed.

Lemma sent_callTool env c n args w k :
  tool_call n args = Some k ->
  sent (callTool {| client := Some c |} n args) env w =
  sent (invoke c k) env w.
Proof.
  intros Hk; unfold sent.
  rewrite callTool_connected, Hk; reflexivity.
Qed.

(** X14: the registry holds seven tools under seven different names;
    each is found under its own name, and a [tools/call] with any other
    name is answered as an unknown tool, without a request, whether the
    server is connected or not. *)
Theorem X14_registry_closed :
  length setupTools = 7 /\
  NoDup tool_names /\
  (forall t, In t setupTools -> find_tool setupTools (name t) = Some t) /\
  (forall this n args env w,
     ~ In n tool_names ->
     callTool this n args env w = (Returned ToolNotFound, w)).
Proof.
  repeat split.
  - unfold tool_names, setupTools; simpl.
    repeat (constructor;
            [simpl; intros H;
             repeat (destruct H as [H|H]; [discriminate H|]);
             exact H|]).
    constructor.
  - unfold setupTools; simpl.
    intros t [<-|[<-|[<-|[<-|[<-|[<-|[<-|[]]]]]]]]; reflexivity.
  - intros this n args env w Hout.
    unfold callTool; rewrite (find_tool_unknown n Hout); reflexivity.
Qed.

Lemma X14_registry_closed_witness :
  callTool Sample.server "delete_project" (JObj [])
    (Sample.always (Fulfilled Sample.started)) initial_world =
  (Returned ToolNotFound, initial_world).
Proof.
  refine (proj2 (proj2 (proj2 X14_registry_closed))
            Sample.server "delete_project" (JObj [])
            (Sample.always (Fulfilled Sample.started)) initial_world _).
  unfold tool_names, setupTools; simpl.
  intros H.
  repeat (destruct H as [H|H]; [discriminate H|]).
  exact H.
Defined.

(* ================================================================== *)
(** ** Errors and identities *)
(* ================================================================== *)

Lemma error_by_truthiness_truthy err :
  truthy (error_by_truthiness err) = true.
Proof.
  unfold error_by_truthiness.
  assert (Hfb : truthy (if String.eqb (ae_message err) EmptyString
                        then JStr "Unknown API error"
                        else JStr (ae_message err)) = true).
  { destruct (ae_message err); reflexivity. }
  destruct (ae_response err) as [r|]; [|exact Hfb].
  destruct (truthy (resp_data r)); [|exact Hfb].
  destruct (truthy (field (resp_data r) "error")) eqn:He; [exact He|].
  destruct (truthy (field (resp_data r) "message")) eqn:Hm; [exact Hm|].
  exact Hfb.
Qed.

(** X15: the [error] of an APIError thrown by a call on the client is
    never empty: it is a truthy value, whatever the rejection carried
    (no body, an empty message, an empty [error] property). *)
Theorem X15_thrown_error_never_empty env c k w a :
  outcome_of (run_call c k) env w = Thrown (ExnAPIError a) ->
  truthy (error a) = true /\
  error a <> JUndefined /\
  error a <> JStr EmptyString.
Proof.
  unfold outcome_of; intros Hthrown.
  destruct (invoke_thrown env c k w (ExnAPIError a)
              (run_call_thrown env c k w _ Hthrown))
    as [req [_ [[err [_ He]] | [resp [_ [_ He]]]]]];
    [|discriminate He].
  inversion He as [Ha].
  assert (Ht : truthy (error (formatErrorAt (clock env (S (ticks w))) err))
               = true)
    by (rewrite formatErrorAt_error; apply error_by_truthiness_truthy).
  repeat split; try exact Ht;
    intros Heq; rewrite Heq in Ht; discriminate Ht.
Qed.

Lemma X15_thrown_error_never_empty_witness :
  exists a,
    outcome_of (run_call Sample.the_client CallGetNextTask)
      (Sample.always (Rejected Sample.empty_error)) initial_world =
    Thrown (ExnAPIError a) /\
    truthy (error a) = true.
Proof.
  eexists; split; [reflexivity|].
  exact (proj1 (X15_thrown_error_never_empty
                  (Sample.always (Rejected Sample.empty_error))
                  Sample.the_client CallGetNextTask initial_world _
                  eq_refl)).
Defined.

Lemma substring_length (m : nat) (s : string) :
  String.length (substring 0 m s) <= m.
Proof.
  revert s; induction m as [|m IH]; intros s.
  - destruct s; simpl; lia.
  - destruct s as [|ch s]; simpl; [lia|].
    specialize (IH s); lia.
Qed.

(** X16: the assistant id of a client is never empty.  A configured id
    that is not empty is taken as it is; without one, or with an empty
    one, the id is "ai_" followed by the first eight characters of the
    generated identifier, eleven characters at most. *)
Theorem X16_assistant_id config options uuid :
  let c := constructor config options uuid in
  cl_aiAssistantId c <> EmptyString /\
  (forall s,
     aiAssistantId config = Some s -> s <> EmptyString ->
     cl_aiAssistantId c = s) /\
  (aiAssistantId config = None \/
   aiAssistantId config = Some EmptyString ->
   cl_aiAssistantId c = "ai_" ++ substring 0 8 uuid /\
   String.length (cl_aiAssistantId c) <= 11).
Proof.
  simpl; unfold str_or.
  repeat split.
  - destruct (aiAssistantId config) as [[|ch s]|]; simpl; discriminate.
  - intros s -> Hs.
    destruct s; [contradiction | reflexivity].
  - destruct H as [-> | ->]; reflexivity.
  - destruct H as [-> | ->]; simpl;
      pose proof (substring_length 8 uuid); lia.
Qed.

Lemma X16_assistant_id_witness :
  cl_aiAssistantId
    (constructor
       {| apiUrl := "https://bldbl.dev/api"; apiKey := "k";
          projectId := "p"; aiAssistantId := Some EmptyString;
          timeout := None |}
       empty_options "3f2b8c1e-9d4a-4c6b-8a1f-0e5d7c9b2a34") =
  "ai_3f2b8c1e".
Proof.
  exact (proj1 (proj2 (proj2
    (X16_assistant_id
       {| apiUrl := "https://bldbl.dev/api"; apiKey := "k";
          projectId := "p"; aiAssistantId := Some EmptyString;
          timeout := None |}
       empty_options "3f2b8c1e-9d4a-4c6b-8a1f-0e5d7c9b2a34"))
    (or_intror eq_refl))).
Defined.

(* ================================================================== *)
(** ** Completing a task *)
(* ================================================================== *)

Lemma first_request env c k req w :
  primary_request c k = Some req ->
  exists rest, sent (invoke c k) env w = req :: rest.
Proof.
  intros Hreq.
  destruct (transport env (trace w) req) as [resp|err] eqn:Ht.
  - destruct (invoke_fulfilled_trace env c k req resp w Hreq Ht)
      as [r [n Hn]].
    eexists; apply sent_appended.
    rewrite Hn; simpl; rewrite <- app_assoc; reflexivity.
  - exists [].
    exact (sent_one _ _ _ _ _ _ (invoke_rejected env c k req err w Hreq Ht)).
Qed.

(** X17: the first request of [completeTask] is a POST to
    [/tasks/{id}/complete] whose body has five keys: the list of
    modified files under both [files_created] and [files_modified], the
    notes, the minutes, and [verification_evidence], which is "Tests
    passed" when [testing_completed] is set and absent otherwise.
    Nothing else of the completion request is transmitted. *)
Theorem X17_completion_body env c taskId completion w :
  exists req rest,
    sent (completeTask c taskId completion) env w = req :: rest /\
    method req = POST /\
    url req = "/tasks/" ++ taskId ++ "/complete" /\
    keys (req_data req) =
      [ "files_created"; "files_modified"; "completion_notes";
        "time_spent_minutes"; "verification_evidence" ] /\
    field (req_data req) "files_created" =
      of_strings (ctr_files_modified completion) /\
    field (req_data req) "files_modified" =
      of_strings (ctr_files_modified completion) /\
    field (req_data req) "completion_notes" =
      JStr (completion_notes completion) /\
    field (req_data req) "time_spent_minutes" =
      JNum (ctr_time_spent completion) /\
    (testing_completed completion = true ->
     field (req_data req) "verification_evidence" = JStr "Tests passed") /\
    (testing_completed completion = false ->
     field (req_data req) "verification_evidence" = JUndefined).
Proof.
  destruct (first_request env c (CallCompleteTask taskId completion) _ w
              eq_refl) as [rest Hs].
  simpl in Hs.
  do 2 eexists; split; [exact Hs|].
  repeat split; try reflexivity; simpl; intros ->; reflexivity.
Qed.

Lemma X17_completion_body_witness :
  exists req rest,
    sent (completeTask Sample.the_client "t1" Scenario.finished)
         (Sample.always (Fulfilled Sample.started)) initial_world =
    req :: rest /\
    field (req_data req) "verification_evidence" = JStr "Tests passed".
Proof.
  destruct (X17_completion_body (Sample.always (Fulfilled Sample.started))
              Sample.the_client "t1" Scenario.finished initial_world)
    as [req [rest [Hs [_ [_ [_ [_ [_ [_ [_ [Hyes _]]]]]]]]]]].
  exists req, rest; split; [exact Hs | exact (Hyes eq_refl)].
Defined.

(** X18: a [complete_task] call that gives only [task_id] and
    [completion_notes] sends empty file lists, zero minutes and no
    [verification_evidence]. *)
Theorem X18_complete_task_defaults env c args taskId text w :
  field args "task_id" = JStr taskId ->
  field args "completion_notes" = JStr text ->
  field args "files_modified" = JUndefined ->
  field args "testing_completed" = JUndefined ->
  field args "documentation_updated" = JUndefined ->
  field args "time_spent" = JUndefined ->
  exists req rest,
    sent (callTool {| client := Some c |} "complete_task" args) env w =
      req :: rest /\
    url req = "/tasks/" ++ taskId ++ "/complete" /\
    req_data req =
      JObj [ ("files_created", JArr []);
             ("files_modified", JArr []);
             ("completion_notes", JStr text);
             ("time_spent_minutes", JNum (NFin (0 # 1)));
             ("verification_evidence", JUndefined) ].
Proof.
  intros Hid Hnotes Hfiles Htest Hdoc Htime.
  assert (Hcall : tool_call "complete_task" args =
                  Some (CallCompleteTask taskId
                          {| completion_notes := text;
                             ctr_files_modified := [];
                             testing_completed := false;
                             documentation_updated := false;
                             ctr_time_spent := NFin (0 # 1);
                             challenges_faced := None;
                             lessons_learned := None;
                             next_recommendations := None |})).
  { destruct args; simpl in Hid; try discriminate Hid.
    unfold tool_call; simpl.
    simpl in Hnotes, Hfiles, Htest, Hdoc, Htime.
    rewrite Hid, Hnotes, Hfiles, Htest, Hdoc, Htime; reflexivity. }
  rewrite (sent_callTool env c "complete_task" args w _ Hcall).
  destruct (first_request env c
              (CallCompleteTask taskId
                 {| completion_notes := text;
                    ctr_files_modified := [];
                    testing_completed := false;
                    documentation_updated := false;
                    ctr_time_spent := NFin (0 # 1);
                    challenges_faced := None;
                    lessons_learned := None;
                    next_recommendations := None |}) _ w eq_refl)
    as [rest Hrest].
  do 2 eexists; split; [exact Hrest|].
  split; reflexivity.
Qed.

Lemma X18_complete_task_defaults_witness :
  exists req rest,
    sent (callTool Sample.server "complete_task" Scenario.completion_args)
         (Sample.always (Fulfilled Sample.started)) initial_world =
      req :: rest /\
    field (req_data req) "time_spent_minutes" = JNum (NFin (0 # 1)).
Proof.
  destruct (X18_complete_task_defaults
              (Sample.always (Fulfilled Sample.started)) Sample.the_client
              Scenario.completion_args "t1" "done" initial_world
              eq_refl eq_refl eq_refl eq_refl eq_refl eq_refl)
    as [req [rest [Hs [_ Hbody]]]].
  exists req, rest; split; [exact Hs|].
  rewrite Hbody; reflexivity.
Defined.

(* ================================================================== *)
(** ** Arguments that are validated and then dropped *)
(* ================================================================== *)

(** X19: two [complete_task] calls whose arguments differ only in a
    valid [documentation_updated] run identically: the flag is checked
    by the schema and reaches no request. *)
Theorem X19_documentation_updated_not_transmitted env this a b w :
  agree_except "documentation_updated" a b ->
  Zod.optional Zod.boolean (field a "documentation_updated") <> None ->
  Zod.optional Zod.boolean (field b "documentation_updated") <> None ->
  callTool this "complete_task" a env w =
    callTool this "complete_task" b env w.
Proof.
  intros [[fa [fb [-> ->]]] Hag] Hda Hdb.
  unfold callTool.
  change (find_tool setupTools "complete_task") with (Some complete_task).
  cbv beta iota delta [inputSchema complete_task Zod.object field].
  simpl in Hda, Hdb.
  agree_on Hag "task_id".
  agree_on Hag "completion_notes".
  agree_on Hag "files_modified".
  agree_on Hag "testing_completed".
  agree_on Hag "time_spent".
  destruct (Zod.string (lookup "task_id" fb)); [|reflexivity].
  destruct (Zod.string (lookup "completion_notes" fb)); [|reflexivity].
  destruct (Zod.optional (Zod.array Zod.string)
              (lookup "files_modified" fb)); [|reflexivity].
  destruct (Zod.optional Zod.boolean (lookup "testing_completed" fb));
    [|reflexivity].
  destruct (Zod.optional Zod.boolean (lookup "documentation_updated" fa));
    [|contradiction].
  destruct (Zod.optional Zod.boolean (lookup "documentation_updated" fb));
    [|contradiction].
  destruct (Zod.optional (Zod.parse_number Zod.number)
              (lookup "time_spent" fb)); [|reflexivity].
  unfold callback.
  destruct (client this); reflexivity.
Qed.

Lemma X19_documentation_updated_not_transmitted_witness :
  callTool Sample.server "complete_task"
    (JObj [ ("task_id", JStr "t1"); ("completion_notes", JStr "done");
            ("documentation_updated", JBool true) ])
    (Sample.always (Fulfilled Sample.started)) initial_world =
  callTool Sample.server "complete_task"
    (JObj [ ("task_id", JStr "t1"); ("completion_notes", JStr "done");
            ("documentation_updated", JBool false) ])
    (Sample.always (Fulfilled Sample.started)) initial_world.
Proof.
  refine (X19_documentation_updated_not_transmitted
            (Sample.always (Fulfilled Sample.started)) Sample.server
            (JObj [ ("task_id", JStr "t1"); ("completion_notes", JStr "done");
                    ("documentation_updated", JBool true) ])
            (JObj [ ("task_id", JStr "t1"); ("completion_notes", JStr "done");
                    ("documentation_updated", JBool false) ])
            initial_world _ _ _).
  - split.
    + do 2 eexists; split; reflexivity.
    + intros k' Hk'; simpl.
      destruct (String.eqb k' "task_id"); [reflexivity|].
      destruct (String.eqb k' "completion_notes"); [reflexivity|].
      destruct (String.eqb k' "documentation_updated") eqn:E.
      * apply String.eqb_eq in E; contradiction.
      * reflexivity.
  - discriminate.
  - discriminate.
Defined.

(** X20: two [create_discussion] calls whose arguments differ only in a
    valid [tags] list run identically: the tags are checked by the
    schema and reach no request. *)
Theorem X20_tags_not_transmitted env this a b w :
  agree_except "tags" a b ->
  Zod.optional (Zod.array Zod.string) (field a "tags") <> None ->
  Zod.optional (Zod.array Zod.string) (field b "tags") <> None ->
  callTool this "create_discussion" a env w =
    callTool this "create_discussion" b env w.
Proof.
  intros [[fa [fb [-> ->]]] Hag] Hta Htb.
  unfold callTool; rewrite find_create_discussion.
  change (inputSchema create_discussion) with create_discussion_schema.
  unfold create_discussion_schema, Zod.object.
  cbv beta iota delta [field].
  simpl in Hta, Htb.
  agree_on Hag "title".
  agree_on Hag "content".
  agree_on Hag "urgency".
  destruct (Zod.string (lookup "title" fb)); [|reflexivity].
  destruct (Zod.string (lookup "content" fb)); [|reflexivity].
  destruct (Zod.optional urgency_enum (lookup "urgency" fb)); [|reflexivity].
  destruct (Zod.optional (Zod.array Zod.string) (lookup "tags" fa));
    [|contradiction].
  destruct (Zod.optional (Zod.array Zod.string) (lookup "tags" fb));
    [|contradiction].
  unfold create_discussion, callback.
  destruct (client this); reflexivity.
Qed.

Lemma X20_tags_not_transmitted_witness :
  callTool Sample.server "create_discussion"
    (JObj [ ("title", JStr "Which database?");
            ("content", JStr "Postgres or SQLite?");
            ("tags", JArr [ JStr "db" ]) ])
    (Sample.always (Fulfilled Sample.started)) initial_world =
  callTool Sample.server "create_discussion"
    (JObj [ ("title", JStr "Which database?");
            ("content", JStr "Postgres or SQLite?") ])
    (Sample.always (Fulfilled Sample.started)) initial_world.
Proof.
  refine (X20_tags_not_transmitted
            (Sample.always (Fulfilled Sample.started)) Sample.server
            (JObj [ ("title", JStr "Which database?");
                    ("content", JStr "Postgres or SQLite?");
                    ("tags", JArr [ JStr "db" ]) ])
            (JObj [ ("title", JStr "Which database?");
                    ("content", JStr "Postgres or SQLite?") ])
            initial_world _ _ _).
  - split.
    + do 2 eexists; split; reflexivity.
    + intros k' Hk'; simpl.
      destruct (String.eqb k' "title"); [reflexivity|].
      destruct (String.eqb k' "content"); [reflexivity|].
      destruct (String.eqb k' "tags") eqn:E.
      * apply String.eqb_eq in E; contradiction.
      * reflexivity.
  - discriminate.
  - discriminate.
Defined.

(* ================================================================== *)
(** ** Urgency *)
(* ================================================================== *)

Lemma urgency_enum_string s u :
  urgency_enum (JStr s) = Some u -> urgency_string u = s.
Proof.
  unfold urgency_enum, Zod.enum; simpl.
  destruct (String.eqb_spec s "low") as [->|_];
    [intros H; inversion H; reflexivity|].
  destruct (String.eqb_spec s "medium") as [->|_];
    [intros H; inversion H; reflexivity|].
  destruct (String.eqb_spec s "high") as [->|_];
    [intros H; inversion H; reflexivity|].
  discriminate.
Qed.

Lemma urgency_enum_outside s :
  ~ In s [ "low"; "medium"; "high" ] -> urgency_enum (JStr s) = None.
Proof.
  intros H; unfold urgency_enum, Zod.enum; simpl.
  destruct (String.eqb_spec s "low") as [->|_];
    [exfalso; apply H; simpl; tauto|].
  destruct (String.eqb_spec s "medium") as [->|_];
    [exfalso; apply H; simpl; tauto|].
  destruct (String.eqb_spec s "high") as [->|_];
    [exfalso; apply H; simpl; tauto|].
  reflexivity.
Qed.

Lemma createDiscussion_body_urgency c d u :
  opt_chain (context d) urgency = Some u ->
  field (createDiscussion_body c d) "urgency" = JStr (urgency_string u) /\
  field (field (createDiscussion_body c d) "context") "urgency" =
    JStr (urgency_string u).
Proof.
  intros H; unfold createDiscussion_body; simpl.
  rewrite H; destruct u; split; reflexivity.
Qed.

(** X21: an urgency given to [createDiscussion] is sent as it is, both
    as [urgency] and as [context.urgency]; a [create_discussion] call
    whose [urgency] is one of the three literals sends that literal. *)
Theorem X21_explicit_urgency env c w :
  (forall d u,
     opt_chain (context d) urgency = Some u ->
     exists req,
       sent (createDiscussion c d) env w = [req] /\
       field (req_data req) "urgency" = JStr (urgency_string u) /\
       field (field (req_data req) "context") "urgency" =
         JStr (urgency_string u)) /\
  (forall args a s,
     create_discussion_schema args = Some a ->
     field args "urgency" = JStr s ->
     exists req,
       sent (callTool {| client := Some c |} "create_discussion" args)
            env w = [req] /\
       field (req_data req) "urgency" = JStr s /\
       field (field (req_data req) "context") "urgency" = JStr s).
Proof.
  split.
  - intros d u Hu.
    destruct (createDiscussion_body_urgency c d u Hu) as [Htop Hctx].
    eexists; split;
      [exact (sent_appended _ _ _ _ (createDiscussion_trace env c d w))|].
    split; assumption.
  - intros args a s Hparse Hs.
    assert (Hu : exists u, cd_urgency a = Some u /\ urgency_string u = s).
    { revert Hparse; unfold create_discussion_schema, Zod.object.
      destruct args; try discriminate.
      rewrite Hs.
      destruct (Zod.string (field (JObj fields) "title"));
        try discriminate.
      destruct (Zod.string (field (JObj fields) "content"));
        try discriminate.
      unfold Zod.optional at 1.
      destruct (urgency_enum (JStr s)) as [u|] eqn:Hu; try discriminate.
      destruct (Zod.optional (Zod.array Zod.string)
                  (field (JObj fields) "tags")); try discriminate.
      intros H; inversion H; simpl.
      exists u; split; [reflexivity | exact (urgency_enum_string s u Hu)]. }
    destruct Hu as [u [Hu <-]].
    destruct (createDiscussion_body_urgency c (create_discussion_request a) u)
      as [Htop Hctx]; [exact Hu|].
    eexists; split.
    + apply sent_appended.
      rewrite (callTool_create_discussion_trace env c args a w Hparse).
      apply createDiscussion_trace.
    + split; assumption.
Qed.

Lemma X21_explicit_urgency_witness :
  exists req,
    sent (callTool Sample.server "create_discussion"
            (Scenario.discussion_args "high"))
         (Sample.always (Fulfilled Sample.started)) initial_world = [req] /\
    field (req_data req) "urgency" = JStr "high" /\
    field (field (req_data req) "context") "urgency" = JStr "high".
Proof.
  exact (proj2 (X21_explicit_urgency
                  (Sample.always (Fulfilled Sample.started))
                  Sample.the_client initial_world)
           (Scenario.discussion_args "high") _ "high" eq_refl eq_refl).
Defined.

(** X22: a [create_discussion] call whose [urgency] is a string other
    than "low", "medium" and "high" is refused by the schema: no request
    is sent, with or without a client. *)
Theorem X22_unknown_urgency_rejected env this args s w :
  field args "urgency" = JStr s ->
  ~ In s [ "low"; "medium"; "high" ] ->
  callTool this "create_discussion" args env w =
    (Returned InvalidArguments, w).
Proof.
  intros Hs Hout.
  unfold callTool; rewrite find_create_discussion.
  change (inputSchema create_discussion) with create_discussion_schema.
  unfold create_discussion_schema, Zod.object.
  destruct args; try reflexivity.
  rewrite Hs.
  destruct (Zod.string (field (JObj fields) "title")); [|reflexivity].
  destruct (Zod.string (field (JObj fields) "content")); [|reflexivity].
  unfold Zod.optional at 1.
  rewrite (urgency_enum_outside s Hout); reflexivity.
Qed.

Lemma X22_unknown_urgency_rejected_witness :
  callTool Sample.server "create_discussion"
    (Scenario.discussion_args "urgent")
    (Sample.always (Fulfilled Sample.started)) initial_world =
  (Returned InvalidArguments, initial_world).
Proof.
  refine (X22_unknown_urgency_rejected
            (Sample.always (Fulfilled Sample.started)) Sample.server
            (Scenario.discussion_args "urgent") "urgent" initial_world
            eq_refl _).
  simpl; intros H.
  repeat (destruct H as [H|H]; [discriminate H|]).
  exact H.
Defined.

(* ================================================================== *)
(** ** Parsing and sending again *)
(* ================================================================== *)

Lemma string_roundtrip v s : Zod.string v = Some s -> JStr s = v.
Proof. destruct v; simpl; intros H; inversion H; reflexivity. Qed.

Lemma number_roundtrip z v n : Zod.parse_number z v = Some n -> JNum n = v.
Proof.
  destruct v as [| | |m| | |]; simpl; try discriminate.
  destruct m; try discriminate;
    destruct (forallb _ z); intros H; inversion H; reflexivity.
Qed.

Lemma strings_roundtrip v l :
  Zod.array Zod.string v = Some l -> of_strings l = v.
Proof.
  destruct v as [| | | | |items|]; simpl; try discriminate.
  unfold of_strings.
  revert l; induction items as [|x rest IH]; simpl; intros l H.
  - inversion H; reflexivity.
  - destruct (Zod.string x) as [s|] eqn:Hx; [|discriminate H].
    destruct (Zod.parse_items Zod.string rest) as [xs|]; [|discriminate H].
    inversion H; subst l; simpl.
    rewrite (string_roundtrip x s Hx).
    specialize (IH xs eq_refl); inversion IH.
    reflexivity.
Qed.

Lemma optional_roundtrip {A : Type} (p : Zod.schema A) (enc : A -> value)
    v o :
  (forall x a, p x = Some a -> enc a = x) ->
  Zod.optional p v = Some o -> of_option enc o = v.
Proof.
  intros Hp; unfold Zod.optional.
  destruct v; try (intros H; inversion H; reflexivity);
    match goal with
    | |- context [p ?x] =>
        destruct (p x) as [a|] eqn:Hx; [|discriminate];
        intros H; inversion H; simpl; exact (Hp _ _ Hx)
    end.
Qed.

(** What the schema of [update_progress] returns, property by
    property. *)
Lemma update_progress_schema_fields args a :
  update_progress_schema args = Some a ->
  JStr (up_task_id a) = field args "task_id" /\
  JNum (up_progress a) = field args "progress" /\
  of_option of_strings (up_completed_steps a) =
    field args "completed_steps" /\
  of_option JStr (up_current_step a) = field args "current_step" /\
  of_option of_strings (up_challenges a) = field args "challenges" /\
  of_option of_strings (up_files_modified a) =
    field args "files_modified" /\
  of_option JNum (up_time_spent a) = field args "time_spent" /\
  of_option JStr (up_notes a) = field args "notes".
Proof.
  unfold update_progress_schema, Zod.object.
  destruct args; try discriminate.
  destruct (Zod.string (field (JObj fields) "task_id")) eqn:H1;
    try discriminate.
  destruct (Zod.parse_number _ (field (JObj fields) "progress")) eqn:H2;
    try discriminate.
  destruct (Zod.string (field (JObj fields) "status_update"));
    try discriminate.
  destruct (Zod.optional (Zod.array Zod.string)
              (field (JObj fields) "completed_steps")) eqn:H3;
    try discriminate.
  destruct (Zod.optional Zod.string (field (JObj fields) "current_step"))
    eqn:H4; try discriminate.
  destruct (Zod.optional (Zod.array Zod.string)
              (field (JObj fields) "challenges")) eqn:H5;
    try discriminate.
  destruct (Zod.optional (Zod.array Zod.string)
              (field (JObj fields) "files_modified")) eqn:H6;
    try discriminate.
  destruct (Zod.optional (Zod.parse_number Zod.number)
              (field (JObj fields) "time_spent")) eqn:H7;
    try discriminate.
  destruct (Zod.optional Zod.string (field (JObj fields) "notes")) eqn:H8;
    try discriminate.
  intros H; inversion H; subst a; simpl.
  repeat split.
  - exact (string_roundtrip _ _ H1).
  - exact (number_roundtrip _ _ _ H2).
  - exact (optional_roundtrip _ _ _ _ strings_roundtrip H3).
  - exact (optional_roundtrip _ _ _ _ string_roundtrip H4).
  - exact (optional_roundtrip _ _ _ _ strings_roundtrip H5).
  - exact (optional_roundtrip _ _ _ _ strings_roundtrip H6).
  - exact (optional_roundtrip _ _ _ _ (number_roundtrip Zod.number) H7).
  - exact (optional_roundtrip _ _ _ _ string_roundtrip H8).
Qed.

(** X23: an [update_progress] call the schema accepts is forwarded
    value for value: the first request goes to the task named by
    [task_id], and its body carries the argument [progress] as
    [completion_percentage], [files_modified] as both [files_created]
    and [files_modified], [challenges] as [blockers], [time_spent] as
    [time_spent_minutes], and [notes], [current_step] and
    [completed_steps] under their own names, each exactly as it was
    given (absent when it was absent). *)
Theorem X23_update_progress_forwards env c args a w :
  update_progress_schema args = Some a ->
  exists req rest,
    sent (callTool {| client := Some c |} "update_progress" args) env w =
      req :: rest /\
    url req = "/tasks/" ++ up_task_id a ++ "/progress" /\
    JStr (up_task_id a) = field args "task_id" /\
    field (req_data req) "completion_percentage" = field args "progress" /\
    field (req_data req) "files_created" = field args "files_modified" /\
    field (req_data req) "files_modified" = field args "files_modified" /\
    field (req_data req) "blockers" = field args "challenges" /\
    field (req_data req) "time_spent_minutes" = field args "time_spent" /\
    field (req_data req) "notes" = field args "notes" /\
    field (req_data req) "current_step" = field args "current_step" /\
    field (req_data req) "completed_steps" = field args "completed_steps".
Proof.
  intros Hparse.
  destruct (update_progress_schema_fields args a Hparse)
    as [Hid [Hp [Hcs [Hcur [Hch [Hf [Ht Hn]]]]]]].
  assert (Hcall : tool_call "update_progress" args =
                  Some (CallUpdateProgress (up_task_id a)
                          {| progress := up_progress a;
                             status_update := up_status_update a;
                             completed_steps := up_completed_steps a;
                             current_step := up_current_step a;
                             challenges := up_challenges a;
                             files_modified := up_files_modified a;
                             time_spent := up_time_spent a;
                             notes := up_notes a |})).
  { unfold tool_call.
    change (inputSchema update_progress) with update_progress_schema.
    rewrite Hparse; reflexivity. }
  rewrite (sent_callTool env c "update_progress" args w _ Hcall).
  match goal with
  | |- context [sent (invoke c ?k) env w] =>
      destruct (first_request env c k _ w eq_refl) as [rest Hrest]
  end.
  do 2 eexists; split; [exact Hrest|].
  simpl.
  rewrite <- Hp, <- Hcs, <- Hcur, <- Hch, <- Hf, <- Ht, <- Hn.
  repeat split; auto.
Qed.

Lemma X23_update_progress_forwards_witness :
  exists req rest,
    sent (callTool Sample.server "update_progress"
            (Sample.progress_args (50 # 1) "halfway"))
         (Sample.always (Fulfilled Sample.started)) initial_world =
      req :: rest /\
    field (req_data req) "files_created" = JArr [ JStr "src/a.ts" ].
Proof.
  destruct (X23_update_progress_forwards
              (Sample.always (Fulfilled Sample.started)) Sample.the_client
              (Sample.progress_args (50 # 1) "halfway") _ initial_world
              eq_refl)
    as [req [rest [Hs [_ [_ [_ [Hfc _]]]]]]].
  exists req, rest; split; [exact Hs | exact Hfc].
Defined.

(** X24: the schema of [progress] accepts exactly the percentages: a
    value passes, unchanged, if and only if it is a finite number from
    0 to 100, both bounds included. *)
Theorem X24_progress_schema_exact v n :
  Zod.parse_number (Zod.max (100 # 1) (Zod.min (0 # 1) Zod.number)) v =
    Some n <->
  v = JNum n /\ percentage n.
Proof.
  split.
  - intros H.
    pose proof (number_roundtrip _ _ _ H) as Hv; subst v.
    split; [reflexivity | exact (parse_number_percentage n n H)].
  - intros [-> [q [-> [Hlo Hhi]]]]; simpl.
    rewrite !negb_involutive.
    apply Qle_bool_iff in Hlo; apply Qle_bool_iff in Hhi.
    rewrite Hlo, Hhi; reflexivity.
Qed.

Lemma X24_progress_schema_exact_witness :
  Zod.parse_number (Zod.max (100 # 1) (Zod.min (0 # 1) Zod.number))
    (JNum (NFin (100 # 1))) = Some (NFin (100 # 1)).
Proof.
  apply (proj2 (X24_progress_schema_exact (JNum (NFin (100 # 1)))
                  (NFin (100 # 1)))).
  split; [reflexivity|].
  exists (100 # 1)%Q; repeat split; unfold Qle; simpl; lia.
Defined.

(* ================================================================== *)
(** ** Start-up *)
(* ================================================================== *)

Lemma str_or_unset o d : unset_or_empty o -> str_or o d = d.
Proof. intros [-> | ->]; reflexivity. Qed.

Lemma str_or_set s d : s <> EmptyString -> str_or (Some s) d = s.
Proof. destruct s; [contradiction | reflexivity]. Qed.

Lemma str_nonempty_iff s : str_nonempty s = true <-> s <> EmptyString.
Proof. destruct s; simpl; split; congruence. Qed.

(** X25: [initialize] fails before anything is sent when the API key is
    unset or empty, and, the key being there, when the project id is
    unset or empty; the error names the missing variable. *)
Theorem X25_initialize_requires_configuration penv uuid env w :
  (unset_or_empty (penv "BUILDABLE_API_KEY") ->
   initialize penv uuid env w = (Thrown api_key_required, w)) /\
  (forall key,
     penv "BUILDABLE_API_KEY" = Some key -> key <> EmptyString ->
     unset_or_empty (penv "BUILDABLE_PROJECT_ID") ->
     initialize penv uuid env w = (Thrown project_id_required, w)).
Proof.
  split.
  - intros Hkey; unfold initialize, initialize_config; simpl.
    rewrite (str_or_unset _ EmptyString Hkey); reflexivity.
  - intros key Hkey Hne Hproj; unfold initialize, initialize_config; simpl.
    rewrite Hkey, (str_or_set key EmptyString Hne).
    rewrite (proj2 (str_nonempty_iff key) Hne); simpl.
    rewrite (str_or_unset _ EmptyString Hproj); reflexivity.
Qed.

Lemma X25_initialize_requires_configuration_witness :
  initialize Scenario.keyless "3f2b8c1e-9d4a-4c6b-8a1f-0e5d7c9b2a34"
    (Sample.always (Fulfilled Sample.started)) initial_world =
    (Thrown api_key_required, initial_world) /\
  initialize Scenario.projectless "3f2b8c1e-9d4a-4c6b-8a1f-0e5d7c9b2a34"
    (Sample.always (Fulfilled Sample.started)) initial_world =
    (Thrown project_id_required, initial_world).
Proof.
  split.
  - exact (proj1 (X25_initialize_requires_configuration
                    Scenario.keyless "3f2b8c1e-9d4a-4c6b-8a1f-0e5d7c9b2a34"
                    (Sample.always (Fulfilled Sample.started))
                    initial_world)
             (or_introl eq_refl)).
  - refine (proj2 (X25_initialize_requires_configuration
                     Scenario.projectless
                     "3f2b8c1e-9d4a-4c6b-8a1f-0e5d7c9b2a34"
                     (Sample.always (Fulfilled Sample.started))
                     initial_world)
              "bp_key" eq_refl _ (or_introl eq_refl)).
    discriminate.
Defined.

(** The connection test of [initialize], for a client already built. *)
Lemma connection_test_run env c w :
  exists n l,
    (try_catch (healthCheck c ;;; connect c) (fun _ => ret tt) ;;;
     ret {| client := Some c |}) env w =
    (Returned {| client := Some c |},
     {| trace :=
          (trace w ++
           mergeConfig (cl_axios c) GET "/health" JUndefined :: l)%list;
        ticks := n |}) /\
    match transport env (trace w)
            (mergeConfig (cl_axios c) GET "/health" JUndefined) with
    | Fulfilled _ => exists ts, l = [heartbeat_request c Connected None ts]
    | Rejected _ => l = []
    end.
Proof.
  change (healthCheck c) with (invoke c CallHealthCheck).
  unfold bind, try_catch.
  destruct (transport env (trace w)
              (mergeConfig (cl_axios c) GET "/health" JUndefined))
    as [resp|err] eqn:Ht.
  - destruct (invoke_fulfilled env c CallHealthCheck _ resp w eq_refl Ht
                eq_refl) as [n Hn].
    rewrite Hn; simpl follow_up; rewrite app_nil_r.
    match goal with
    | |- context [connect c env ?w'] =>
        destruct (connect_run env c w') as [m Hm]
    end.
    simpl in Hm; rewrite Hm.
    do 2 eexists; split; [|eexists; reflexivity].
    unfold ret; simpl; rewrite <- app_assoc; reflexivity.
  - rewrite (invoke_rejected env c CallHealthCheck _ err w eq_refl Ht).
    do 2 eexists; split; reflexivity.
Qed.

(** X26: with the API key and the project id set, [initialize] always
    ends with a client on the server, whatever the backend answers.  The
    client has the key and the project id of the environment and the
    assistant id of the environment or "cursor-ide", never a generated
    one.  The health check is sent first; the "connected" heartbeat
    follows only when the health check was fulfilled. *)
Theorem X26_initialize_survives_backend penv uuid env w key project :
  penv "BUILDABLE_API_KEY" = Some key -> key <> EmptyString ->
  penv "BUILDABLE_PROJECT_ID" = Some project -> project <> EmptyString ->
  let c :=
    createBuildableClient (initialize_config penv)
      (initialize_options penv) uuid in
  let health := mergeConfig (cl_axios c) GET "/health" JUndefined in
  outcome_of (initialize penv uuid) env w =
    Returned {| client := Some c |} /\
  apiKey (cl_config c) = key /\
  projectId (cl_config c) = project /\
  cl_aiAssistantId c =
    str_or (penv "BUILDABLE_AI_ASSISTANT_ID") "cursor-ide" /\
  (forall err,
     transport env (trace w) health = Rejected err ->
     sent (initialize penv uuid) env w = [health]) /\
  (forall resp,
     transport env (trace w) health = Fulfilled resp ->
     exists ts,
       sent (initialize penv uuid) env w =
       [health; heartbeat_request c Connected None ts]).
Proof.
  intros Hkey Hk Hproj Hp c health.
  assert (Hc1 : apiKey (initialize_config penv) = key)
    by (simpl; rewrite Hkey; apply str_or_set; exact Hk).
  assert (Hc2 : projectId (initialize_config penv) = project)
    by (simpl; rewrite Hproj; apply str_or_set; exact Hp).
  assert (Hid : cl_aiAssistantId c =
                str_or (penv "BUILDABLE_AI_ASSISTANT_ID") "cursor-ide").
  { unfold c, createBuildableClient, constructor; simpl.
    destruct (penv "BUILDABLE_AI_ASSISTANT_ID") as [[|ch s]|]; reflexivity. }
  assert (Hrun :
    initialize penv uuid env w =
    (try_catch (healthCheck c ;;; connect c) (fun _ => ret tt) ;;;
     ret {| client := Some c |}) env w).
  { unfold initialize.
    rewrite Hc1, Hc2.
    rewrite (proj2 (str_nonempty_iff key) Hk).
    rewrite (proj2 (str_nonempty_iff project) Hp).
    reflexivity. }
  destruct (connection_test_run env c w) as [n [l [Hfull Hl]]].
  rewrite <- Hrun in Hfull; clear Hrun.
  fold health in Hfull, Hl.
  assert (Hsent : sent (initialize penv uuid) env w = health :: l)
    by (apply sent_appended; rewrite Hfull; reflexivity).
  split; [unfold outcome_of; rewrite Hfull; reflexivity|].
  repeat split; auto.
  - intros err Ht; rewrite Ht in Hl; subst l; exact Hsent.
  - intros resp Ht; rewrite Ht in Hl.
    destruct Hl as [ts ->]; exists ts; exact Hsent.
Qed.

Lemma X26_initialize_survives_backend_witness :
  exists c,
    outcome_of (initialize Scenario.configured
                  "3f2b8c1e-9d4a-4c6b-8a1f-0e5d7c9b2a34")
      (Sample.always (Rejected Sample.network_down)) initial_world =
    Returned {| client := Some c |} /\
    cl_aiAssistantId c = "cursor-ide".
Proof.
  eexists.
  refine ((fun H => conj (proj1 H) (proj1 (proj2 (proj2 (proj2 H)))))
            (X26_initialize_survives_backend Scenario.configured
               "3f2b8c1e-9d4a-4c6b-8a1f-0e5d7c9b2a34"
               (Sample.always (Rejected Sample.network_down))
               initial_world "bp_key" "proj_1" eq_refl _ eq_refl _));
    discriminate.
Defined.

(** X27: a client made by [setupBuildable] never has a generated
    assistant id: the id is the configured one, or "buildable-client"
    when none or an empty one is given, whatever identifier would have
    been generated.  A missing or empty [apiUrl] gives the production
    endpoint, and the bearer token is the API key as given. *)
Theorem X27_setupBuildable_defaults config uuid :
  let c := setupBuildable config uuid in
  cl_aiAssistantId c =
    str_or (su_aiAssistantId config) "buildable-client" /\
  cl_aiAssistantId c <> EmptyString /\
  (forall uuid', setupBuildable config uuid' = c) /\
  (unset_or_empty (su_apiUrl config) ->
   ax_baseURL (cl_axios c) = "https://bldbl.dev/api") /\
  header "Authorization" (ax_headers (cl_axios c)) =
    Some ("Bearer " ++ su_apiKey config).
Proof.
  intros c.
  assert (Hid : cl_aiAssistantId c =
                str_or (su_aiAssistantId config) "buildable-client").
  { unfold c, setupBuildable, createBuildableClient, constructor; simpl.
    destruct (su_aiAssistantId config) as [[|ch s]|]; reflexivity. }
  split; [exact Hid|].
  split.
  { rewrite Hid.
    destruct (su_aiAssistantId config) as [[|ch s]|]; simpl; discriminate. }
  split.
  { intros uuid'.
    unfold c, setupBuildable, createBuildableClient, constructor; simpl.
    destruct (su_aiAssistantId config) as [[|ch s]|]; reflexivity. }
  split.
  { intros Hurl.
    unfold c, setupBuildable, createBuildableClient, constructor.
    cbv beta iota zeta delta [cl_axios ax_baseURL apiUrl].
    apply str_or_unset; exact Hurl. }
  reflexivity.
Qed.

Lemma X27_setupBuildable_defaults_witness :
  ax_baseURL (cl_axios (setupBuildable Scenario.plain_setup "3f2b8c1e")) =
  "https://bldbl.dev/api".
Proof.
  exact (proj1 (proj2 (proj2 (proj2
    (X27_setupBuildable_defaults Scenario.plain_setup "3f2b8c1e"))))
    (or_introl eq_refl)).
Defined.

(* ================================================================== *)
(** ** Tool calls, seen from the caller *)
(* ================================================================== *)

Lemma find_tool_in tools n t :
  find_tool tools n = Some t -> In t tools.
Proof.
  induction tools as [|t' rest IH]; simpl; [discriminate|].
  destruct (String.eqb (name t') n).
  - intros H; inversion H; auto.
  - intros H; right; exact (IH H).
Qed.

Lemma callback_unconnected t :
  In t setupTools ->
  forall a env w,
    callback t {| client := None |} a env w = (Thrown not_connected, w).
Proof.
  unfold setupTools; simpl.
  intros [<-|[<-|[<-|[<-|[<-|[<-|[<-|[]]]]]]]]; reflexivity.
Qed.

(** A [tools/call] on a server without client, case by case. *)
Lemma callTool_without_client env n args w :
  callTool {| client := None |} n args env w =
  (Returned match find_tool setupTools n with
            | Some t =>
                match inputSchema t args with
                | Some _ => ToolIsError not_connected
                | None => InvalidArguments
                end
            | None => ToolNotFound
            end, w).
Proof.
  unfold callTool.
  destruct (find_tool setupTools n) as [t|] eqn:Hf; [|reflexivity].
  destruct (inputSchema t args) as [a|]; [|reflexivity].
  unfold try_catch, bind.
  rewrite (callback_unconnected t (find_tool_in _ _ _ Hf)); reflexivity.
Qed.



(** An operation without heartbeat sends its primary request and no
    other, whatever comes back. *)
Lemma sent_without_heartbeat env c k req w :
  primary_request c k = Some req ->
  (forall ts, follow_up c k ts = []) ->
  sent (invoke c k) env w = [req].
Proof.
  intros Hreq Hnone.
  destruct (transport env (trace w) req) as [resp|err] eqn:Ht.
  - destruct (invoke_fulfilled_trace env c k req resp w Hreq Ht)
      as [r [n Hn]].
    apply sent_appended; rewrite Hn; simpl.
    rewrite Hnone, app_nil_r; reflexivity.
  - exact (sent_one _ _ _ _ _ _ (invoke_rejected env c k req err w Hreq Ht)).
Qed.

(** X11: on a connected server a [tools/call] never throws.  It ends
    with the serialised value of the client call, with an error result,
    with refused arguments or with an unknown tool.  An error result
    comes from an APIError, of which the caller receives only the text
    "[object Object]", or from a TypeError; the error "Not connected to
    Buildable API" does not occur. *)
Theorem X11_tool_call_settles env c n args w :
  request_arguments args ->
  exists r,
    outcome_of (callTool {| client := Some c |} n args) env w =
      Returned r /\
    settled env r /\
    r <> ToolIsError not_connected.
Proof.
  intros _.
  unfold outcome_of; rewrite callTool_connected.
  destruct (tool_call n args) as [k|]; cbv beta iota.
  - destruct (invoke c k env w) as [[v|e] w'] eqn:Hrun; simpl.
    + eexists; split; [reflexivity|]; split; [simpl; eauto | discriminate].
    + destruct (invoke_thrown env c k w e) as
        [req [_ [[err [_ He]] | [resp [_ [_ He]]]]]];
        [rewrite Hrun; reflexivity | |]; subst e;
        (eexists; split; [reflexivity|]; split; [|discriminate]); simpl.
      * left; eexists; split; reflexivity.
      * right; reflexivity.
  - destruct (find_tool setupTools n);
      eexists; (split; [reflexivity | split; [exact I | discriminate]]).
Qed.

Lemma X11_tool_call_settles_witness :
  exists r,
    outcome_of (callTool Sample.server "get_next_task" JUndefined)
      (Sample.always (Fulfilled Scenario.odd_title)) initial_world =
      Returned r /\
    settled (Sample.always (Fulfilled Scenario.odd_title)) r.
Proof.
  destruct (X11_tool_call_settles
              (Sample.always (Fulfilled Scenario.odd_title))
              Sample.the_client "get_next_task" JUndefined initial_world
              (or_introl eq_refl)) as [r [Hr [Hs _]]].
  exists r; split; assumption.
Defined.



(** X13: while the server has no client, no [tools/call] sends a
    request.  The three tools without arguments end in the error "Not
    connected to Buildable API" whatever the arguments, left out or
    not; a tool with arguments ends so when its schema accepts them and
    with refused arguments otherwise; any other name is an unknown
    tool. *)
Theorem X13_no_request_without_client env n args w :
  snd (callTool {| client := None |} n args env w) = w /\
  sent (callTool {| client := None |} n args) env w = [] /\
  (argument_free n -> request_arguments args ->
   outcome_of (callTool {| client := None |} n args) env w =
     Returned (ToolIsError not_connected)) /\
  (forall t,
     find_tool setupTools n = Some t ->
     (inputSchema t args <> None ->
      outcome_of (callTool {| client := None |} n args) env w =
        Returned (ToolIsError not_connected)) /\
     (inputSchema t args = None ->
      outcome_of (callTool {| client := None |} n args) env w =
        Returned InvalidArguments)) /\
  (find_tool setupTools n = None ->
   outcome_of (callTool {| client := None |} n args) env w =
     Returned ToolNotFound) /\
  reply (ToolIsError not_connected) =
    ReplyError (Some "Not connected to Buildable API").
Proof.
  pose proof (callTool_without_client env n args w) as Hrun.
  unfold outcome_of.
  split; [rewrite Hrun; reflexivity|].
  split; [exact (sent_nothing _ _ _ _ Hrun)|].
  split; [|split; [|split; [|reflexivity]]].
  - unfold argument_free; simpl.
    intros [<-|[<-|[<-|[]]]] _; reflexivity.
  - intros t Hf; rewrite Hrun, Hf; simpl; split.
    + destruct (inputSchema t args); [reflexivity | contradiction].
    + intros ->; reflexivity.
  - intros Hf; rewrite Hrun, Hf; reflexivity.
Qed.

Lemma X13_no_request_without_client_witness :
  outcome_of (callTool {| client := None |} "get_next_task" JUndefined)
    (Sample.always (Fulfilled Sample.started)) initial_world =
  Returned (ToolIsError not_connected).
Proof.
  refine (proj1 (proj2 (proj2 (X13_no_request_without_client
                         (Sample.always (Fulfilled Sample.started))
                         "get_next_task" JUndefined initial_world)))
            _ (or_introl eq_refl)).
  unfold argument_free; simpl; tauto.
Defined.

(* ================================================================== *)
(** ** Where each tool goes *)
(* ================================================================== *)

Lemma start_task_schema_fields args a :
  inputSchema start_task args = Some a ->
  JStr (st_task_id a) = field args "task_id" /\
  of_option JStr (st_approach a) = field args "approach" /\
  of_option JNum (st_estimated_duration a) =
    field args "estimated_duration" /\
  of_option JStr (st_notes a) = field args "notes".
Proof.
  cbv beta iota delta [inputSchema start_task Zod.object].
  destruct args; try discriminate.
  destruct (Zod.string (field (JObj fields) "task_id")) eqn:H1;
    try discriminate.
  destruct (Zod.optional Zod.string (field (JObj fields) "approach"))
    eqn:H2; try discriminate.
  destruct (Zod.optional (Zod.parse_number Zod.number)
              (field (JObj fields) "estimated_duration")) eqn:H3;
    try discriminate.
  destruct (Zod.optional Zod.string (field (JObj fields) "notes")) eqn:H4;
    try discriminate.
  intros H; inversion H; subst a; simpl.
  repeat split.
  - exact (string_roundtrip _ _ H1).
  - exact (optional_roundtrip _ _ _ _ string_roundtrip H2).
  - exact (optional_roundtrip _ _ _ _ (number_roundtrip Zod.number) H3).
  - exact (optional_roundtrip _ _ _ _ string_roundtrip H4).
Qed.

Lemma complete_task_schema_id args a :
  inputSchema complete_task args = Some a ->
  JStr (ct_task_id a) = field args "task_id".
Proof.
  cbv beta iota delta [inputSchema complete_task Zod.object].
  destruct args; try discriminate.
  destruct (Zod.string (field (JObj fields) "task_id")) eqn:H1;
    try discriminate.
  destruct (Zod.string (field (JObj fields) "completion_notes"));
    try discriminate.
  destruct (Zod.optional (Zod.array Zod.string)
              (field (JObj fields) "files_modified")); try discriminate.
  destruct (Zod.optional Zod.boolean
              (field (JObj fields) "testing_completed")); try discriminate.
  destruct (Zod.optional Zod.boolean
              (field (JObj fields) "documentation_updated"));
    try discriminate.
  destruct (Zod.optional (Zod.parse_number Zod.number)
              (field (JObj fields) "time_spent")); try discriminate.
  intros H; inversion H; subst a; simpl.
  exact (string_roundtrip _ _ H1).
Qed.

Lemma create_discussion_schema_fields args a :
  create_discussion_schema args = Some a ->
  JStr (cd_title a) = field args "title" /\
  JStr (cd_content a) = field args "content".
Proof.
  unfold create_discussion_schema, Zod.object.
  destruct args; try discriminate.
  destruct (Zod.string (field (JObj fields) "title")) eqn:H1;
    try discriminate.
  destruct (Zod.string (field (JObj fields) "content")) eqn:H2;
    try discriminate.
  destruct (Zod.optional urgency_enum (field (JObj fields) "urgency"));
    try discriminate.
  destruct (Zod.optional (Zod.array Zod.string)
              (field (JObj fields) "tags")); try discriminate.
  intros H; inversion H; subst a; simpl.
  split; [exact (string_roundtrip _ _ H1) | exact (string_roundtrip _ _ H2)].
Qed.

Lemma JStr_inj a b : JStr a = JStr b -> a = b.
Proof. intros H; inversion H; reflexivity. Qed.

(** X10: on a connected server each tool goes to its own endpoint.  The
    three tools without arguments send one GET, whatever arguments the
    request carries or leaves out: the context of the project, its next
    task, the health check.  [start_task], [update_progress] and
    [complete_task] post to the task named by the argument [task_id];
    [start_task] forwards [approach], [estimated_duration] (as
    [estimated_time_minutes]) and [notes] as they were given, together
    with the assistant id of the client.  [create_discussion] posts one
    request to the discussions of the project, the argument [title] as
    [title] and [content] as [message], marked as a question that needs
    a human answer. *)
Theorem X10_tool_endpoints env c w args :
  request_arguments args ->
  let this := {| client := Some c |} in
  let ax := cl_axios c in
  let project := "/projects/" ++ projectId (cl_config c) in
  sent (callTool this "get_project_context" args) env w =
    [mergeConfig ax GET (project ++ "/context") JUndefined] /\
  sent (callTool this "get_next_task" args) env w =
    [mergeConfig ax GET (project ++ "/next-task") JUndefined] /\
  sent (callTool this "health_check" args) env w =
    [mergeConfig ax GET "/health" JUndefined] /\
  (forall id,
     field args "task_id" = JStr id ->
     inputSchema start_task args <> None ->
     exists req rest,
       sent (callTool this "start_task" args) env w = req :: rest /\
       method req = POST /\
       url req = "/tasks/" ++ id ++ "/start" /\
       field (req_data req) "ai_assistant_id" =
         JStr (cl_aiAssistantId c) /\
       field (req_data req) "approach" = field args "approach" /\
       field (req_data req) "estimated_time_minutes" =
         field args "estimated_duration" /\
       field (req_data req) "notes" = field args "notes") /\
  (forall id,
     field args "task_id" = JStr id ->
     inputSchema update_progress args <> None ->
     exists req rest,
       sent (callTool this "update_progress" args) env w = req :: rest /\
       method req = POST /\
       url req = "/tasks/" ++ id ++ "/progress") /\
  (forall id,
     field args "task_id" = JStr id ->
     inputSchema complete_task args <> None ->
     exists req rest,
       sent (callTool this "complete_task" args) env w = req :: rest /\
       method req = POST /\
       url req = "/tasks/" ++ id ++ "/complete") /\
  (inputSchema create_discussion args <> None ->
   exists req,
     sent (callTool this "create_discussion" args) env w = [req] /\
     method req = POST /\
     url req = project ++ "/discuss" /\
     field (req_data req) "type" = JStr "question" /\
     field (req_data req) "title" = field args "title" /\
     field (req_data req) "message" = field args "content" /\
     field (req_data req) "requires_human_response" = JBool true /\
     field (req_data req) "created_by" = JStr (cl_aiAssistantId c)).
Proof.
  intros _ this ax project.
  split; [|split; [|split; [|split; [|split; [|split]]]]].
  - unfold this;
      rewrite (sent_callTool env c "get_project_context" args w CallGetProjectContext eq_refl).
    exact (sent_without_heartbeat env c CallGetProjectContext _ w eq_refl
             (fun _ => eq_refl)).
  - unfold this;
      rewrite (sent_callTool env c "get_next_task" args w CallGetNextTask eq_refl).
    exact (sent_without_heartbeat env c CallGetNextTask _ w eq_refl
             (fun _ => eq_refl)).
  - unfold this;
      rewrite (sent_callTool env c "health_check" args w CallHealthCheck eq_refl).
    exact (sent_without_heartbeat env c CallHealthCheck _ w eq_refl
             (fun _ => eq_refl)).
  - intros id Hid Hok.
    destruct (inputSchema start_task args) as [a|] eqn:Hparse;
      [clear Hok | contradiction].
    destruct (start_task_schema_fields args a Hparse)
      as [Ha [Happ [Hdur Hnotes]]].
    rewrite Hid in Ha; apply JStr_inj in Ha.
    assert (Hcall : tool_call "start_task" args =
                    Some (CallStartTask (st_task_id a)
                            {| sto_approach := st_approach a;
                               sto_estimated_duration :=
                                 st_estimated_duration a;
                               sto_notes := st_notes a |}))
      by (unfold tool_call; rewrite Hparse; reflexivity).
    unfold this; rewrite (sent_callTool env c _ args w _ Hcall).
    match goal with
    | |- context [sent (invoke c ?k) env w] =>
        destruct (first_request env c k _ w eq_refl) as [rest Hrest]
    end.
    do 2 eexists; split; [exact Hrest|].
    simpl; rewrite Ha, <- Happ, <- Hdur, <- Hnotes.
    repeat split; reflexivity.
  - intros id Hid Hok.
    change (inputSchema update_progress) with update_progress_schema in Hok.
    destruct (update_progress_schema args) as [a|] eqn:Hparse;
      [clear Hok | contradiction].
    destruct (update_progress_schema_fields args a Hparse) as [Ha _].
    rewrite Hid in Ha; apply JStr_inj in Ha.
    assert (Hcall : tool_call "update_progress" args =
                    Some (CallUpdateProgress (up_task_id a)
                            {| progress := up_progress a;
                               status_update := up_status_update a;
                               completed_steps := up_completed_steps a;
                               current_step := up_current_step a;
                               challenges := up_challenges a;
                               files_modified := up_files_modified a;
                               time_spent := up_time_spent a;
                               notes := up_notes a |})).
    { unfold tool_call.
      change (inputSchema update_progress) with update_progress_schema.
      rewrite Hparse; reflexivity. }
    unfold this; rewrite (sent_callTool env c _ args w _ Hcall).
    match goal with
    | |- context [sent (invoke c ?k) env w] =>
        destruct (first_request env c k _ w eq_refl) as [rest Hrest]
    end.
    do 2 eexists; split; [exact Hrest|].
    simpl; rewrite Ha; split; reflexivity.
  - intros id Hid Hok.
    destruct (inputSchema complete_task args) as [a|] eqn:Hparse;
      [clear Hok | contradiction].
    pose proof (complete_task_schema_id args a Hparse) as Ha.
    rewrite Hid in Ha; apply JStr_inj in Ha.
    assert (Hcall : tool_call "complete_task" args =
                    Some (CallCompleteTask (ct_task_id a)
                            {| completion_notes := ct_completion_notes a;
                               ctr_files_modified :=
                                 strings_or_empty (ct_files_modified a);
                               testing_completed :=
                                 bool_or_false (ct_testing_completed a);
                               documentation_updated :=
                                 bool_or_false (ct_documentation_updated a);
                               ctr_time_spent :=
                                 number_or_zero (ct_time_spent a);
                               challenges_faced := None;
                               lessons_learned := None;
                               next_recommendations := None |}))
      by (unfold tool_call; rewrite Hparse; reflexivity).
    unfold this; rewrite (sent_callTool env c _ args w _ Hcall).
    match goal with
    | |- context [sent (invoke c ?k) env w] =>
        destruct (first_request env c k _ w eq_refl) as [rest Hrest]
    end.
    do 2 eexists; split; [exact Hrest|].
    simpl; rewrite Ha; split; reflexivity.
  - intros Hok.
    change (inputSchema create_discussion) with create_discussion_schema
      in Hok.
    destruct (create_discussion_schema args) as [a|] eqn:Hparse;
      [clear Hok | contradiction].
    destruct (create_discussion_schema_fields args a Hparse)
      as [Htitle Hcontent].
    assert (Hcall : tool_call "create_discussion" args =
                    Some (CallCreateDiscussion
                            (create_discussion_request a))).
    { unfold tool_call.
      change (inputSchema create_discussion) with create_discussion_schema.
      rewrite Hparse; reflexivity. }
    unfold this; rewrite (sent_callTool env c _ args w _ Hcall).
    eexists; split;
      [exact (sent_without_heartbeat env c
                (CallCreateDiscussion (create_discussion_request a)) _ w
                eq_refl (fun _ => eq_refl))|].
    simpl; rewrite <- Htitle, <- Hcontent.
    repeat split; reflexivity.
Qed.

Lemma X10_tool_endpoints_witness :
  exists req rest,
    sent (callTool Sample.server "start_task"
            (JObj [ ("task_id", JStr "t1"); ("approach", JStr "tdd") ]))
         (Sample.always (Fulfilled Sample.started)) initial_world =
      req :: rest /\
    url req = "/tasks/t1/start" /\
    field (req_data req) "approach" = JStr "tdd".
Proof.
  destruct (proj1 (proj2 (proj2 (proj2
              (X10_tool_endpoints
                 (Sample.always (Fulfilled Sample.started))
                 Sample.the_client initial_world
                 (JObj [ ("task_id", JStr "t1");
                         ("approach", JStr "tdd") ])
                 (or_intror (or_intror (ex_intro _ _ eq_refl)))))))
              "t1" eq_refl)
    as [req [rest [Hs [_ [Hurl [_ [Happ _]]]]]]].
  - discriminate.
  - exists req, rest; repeat split; assumption.
Defined.
